(** * The limit-monitoring and scheduling core ([src/scheduler.py])

    A shallow embedding of [MonitoringScheduler] and of the part of
    [config.py] it reads, followed by the properties of the monitoring
    loop, the reaper, the backup job and the job orchestrator.

    Conventions of the embedding.
    - Python [int] is [Z]; Python [float] is abstracted by exact rationals
      [Q] (no rounding, no NaN, no overflow); a [datetime] is the number of
      seconds since the epoch, a [Q].
    - The collaborators that are not part of [scheduler.py] (the store
      [db], the panel client [marzban_api], the backup manager, the bot and
      the clock) are fields of an environment [Env]; each call either
      returns or raises, as the environment says.
    - Everything the code mutates or emits lives in a [World]; a coroutine
      is a function from a world to an outcome (a value or a raised
      exception) and the next world.  A raised exception keeps the effects
      that happened before it, as in Python. *)

From Stdlib Require Import ZArith QArith String List Lia.
From stdpp Require Import base option list gmap strings pretty.

Local Open Scope string_scope.
Local Open Scope list_scope.

(** ** Data model *)

(** [AdminModel] rows as the scheduler reads them.  [username] and
    [marzban_username] may be [None]. *)
Module Admin.
Record t : Type := mk {
  id : Z;
  user_id : Z;
  username : option string;
  marzban_username : option string;
  is_active : bool;
  created_at : Q;
  max_users : Z;
  max_total_time : Z;
  max_total_traffic : Z
}.
End Admin.

(** What [marzban_api.get_admin_stats] returns. *)
Module AdminStats.
Record t : Type := mk {
  total_users : Z;
  total_traffic_used : Z
}.
End AdminStats.

(** Modelled from the spec: an element of the sequence returned by
    [marzban_api.get_users], "{username, is_expired, ...}"; the panel
    client module is not among the sources. *)
Module PanelUser.
Record t : Type := mk {
  username : string;
  is_expired : bool
}.
End PanelUser.

Module UsageReportModel.
Record t : Type := mk {
  admin_user_id : Z;
  check_time : Q;
  current_users : Z;
  current_total_time : Z;
  current_total_traffic : Z;
  users_data : string
}.
End UsageReportModel.

Module LogModel.
Record t : Type := mk {
  admin_user_id : option Z;
  action : string;
  details : string;
  timestamp : Q
}.
End LogModel.

(** Modelled from the spec: [LimitCheckResult] of [models/schemas.py],
    which is not among the sources.  Only [admin_user_id] is mandatory;
    the fields left out by a constructor call take the neutral defaults
    ([admin_id] unset, [exceeded = false], [warning = false], an empty
    [limits_data]). *)
Module LimitCheckResult.
Record t : Type := mk {
  admin_user_id : Z;
  admin_id : option Z;
  exceeded : bool;
  warning : bool;
  limits_data : gmap string Q
}.

(** [LimitCheckResult(admin_user_id=uid)] *)
Definition neutral (uid : Z) : t :=
  mk uid None false false ∅.
End LimitCheckResult.

(** A chat identity handed to [bot.send_message]: an admin's numeric
    [user_id], or the string [config.TELEGRAM_ADMIN_CHAT_ID]. *)
Inductive chat_id : Type :=
| ChatInt (n : Z)
| ChatStr (s : string).

(** ** Exceptions *)

Inductive exn : Type :=
| UnboundLocalError (var : string)
| KeyError (key : string)
| ValueError (msg : string)
| CollaboratorError (msg : string)
| SchedulerAlreadyRunningError
| SchedulerNotRunningError.

(** [str(e)], as interpolated in the error lines. *)
Definition str_exn (e : exn) : string :=
  match e with
  | UnboundLocalError var =>
      "cannot access local variable '" +:+ var
        +:+ "' where it is not associated with a value"
  | KeyError key => "'" +:+ key +:+ "'"
  | ValueError msg => msg
  | CollaboratorError msg => msg
  | SchedulerAlreadyRunningError => "Scheduler is already running"
  | SchedulerNotRunningError => "Scheduler is not running"
  end.

(** ** The job registry of APScheduler, as far as [start] and [stop] use it *)

Inductive job_func : Type :=
| job_monitor_all_admins
| job_run_auto_backup.

Inductive trigger : Type :=
| IntervalTrigger (seconds : Z)
| CronTrigger (minute hour day month day_of_week : string).

Module Job.
Record t : Type := mk {
  func : job_func;
  trig : trigger;
  name : string;
  max_instances : Z
}.
End Job.

(** ** Configuration ([config.py]) *)

(** [config.BACKUP_INTERVAL] is either the integer [int(raw)] or, when
    [int] raises [ValueError], the raw string itself. *)
Inductive backup_interval : Type :=
| IntervalInt (n : Z)
| IntervalStr (s : string).

#[global] Instance backup_interval_eq_dec : EqDecision backup_interval.
Proof. solve_decision. Defined.

#[global] Instance backup_interval_countable : Countable backup_interval.
Proof.
  refine (inj_countable'
    (fun v => match v with IntervalInt n => inl n | IntervalStr s => inr s end)
    (fun x => match x with inl n => IntervalInt n | inr s => IntervalStr s end) _).
  intros []; reflexivity.
Defined.

Module Config.
Record t : Type := mk {
  MONITORING_INTERVAL : Z;
  AUTO_DELETE_EXPIRED_USERS : bool;
  BACKUP_INTERVAL : backup_interval;
  TELEGRAM_ADMIN_CHAT_ID : string;
  MESSAGES : gmap string string
}.
End Config.

(** ** Environment: the collaborators *)

(** Whether a call raises, and what it returns, depends on its arguments
    only.  [None] stands for a raised exception wherever a call returns an
    [option]; the [_raises] fields say whether a store call or a send
    raises; [create_backup] returns its [(success, message)] pair.
    [str_format template kwargs] is [template.format( **kwargs )] and
    [str_datetime] is [str] of a [datetime]; neither is interpreted
    here. *)
Record Env : Type := mkEnv {
  config : Config.t;
  (* Quota Record Store *)
  get_admin_raises : Z -> bool;
  get_admin_by_id_raises : option Z -> bool;
  get_all_admins_raises : bool;
  add_usage_report_raises : UsageReportModel.t -> bool;
  add_log_raises : LogModel.t -> bool;
  (* Panel Client *)
  get_admin_stats : string -> option AdminStats.t;
  get_users : string -> option (list PanelUser.t);
  remove_user : string -> option bool;
  (* Backup Service *)
  create_backup : bool -> bool * string;
  (* bot *)
  send_message_raises : chat_id -> string -> bool;
  (* clock and rendering *)
  utcnow : nat -> Q;
  now : nat -> Q;
  str_datetime : Q -> string;
  str_format : string -> list (string * string) -> option string
}.

(** Calls made to the panel client, in order. *)
Inductive panel_call : Type :=
| CallGetAdminStats (username : string)
| CallGetUsers (username : string)
| CallRemoveUser (username : string).

(** ** World: everything the scheduler mutates or emits *)

Record World : Type := mkWorld {
  (* Quota Record Store *)
  db_admins : list Admin.t;
  db_usage_reports : list UsageReportModel.t;
  db_logs : list LogModel.t;
  (* outbound side *)
  panel_calls : list panel_call;
  sent_messages : list (chat_id * string);
  stdout : list string;
  sleeps : list Q;
  (* number of clock readings so far *)
  ticks : nat;
  (* self: the MonitoringScheduler object *)
  is_running : bool;
  aps_jobs : gmap string Job.t;
  aps_running : bool
}.

Definition set_db_usage_reports (f : list UsageReportModel.t -> list UsageReportModel.t)
    (w : World) : World :=
  mkWorld (db_admins w) (f (db_usage_reports w)) (db_logs w) (panel_calls w)
    (sent_messages w) (stdout w) (sleeps w) (ticks w) (is_running w)
    (aps_jobs w) (aps_running w).

Definition set_db_logs (f : list LogModel.t -> list LogModel.t) (w : World) : World :=
  mkWorld (db_admins w) (db_usage_reports w) (f (db_logs w)) (panel_calls w)
    (sent_messages w) (stdout w) (sleeps w) (ticks w) (is_running w)
    (aps_jobs w) (aps_running w).

Definition set_panel_calls (f : list panel_call -> list panel_call) (w : World) : World :=
  mkWorld (db_admins w) (db_usage_reports w) (db_logs w) (f (panel_calls w))
    (sent_messages w) (stdout w) (sleeps w) (ticks w) (is_running w)
    (aps_jobs w) (aps_running w).

Definition set_sent_messages (f : list (chat_id * string) -> list (chat_id * string))
    (w : World) : World :=
  mkWorld (db_admins w) (db_usage_reports w) (db_logs w) (panel_calls w)
    (f (sent_messages w)) (stdout w) (sleeps w) (ticks w) (is_running w)
    (aps_jobs w) (aps_running w).

Definition set_stdout (f : list string -> list string) (w : World) : World :=
  mkWorld (db_admins w) (db_usage_reports w) (db_logs w) (panel_calls w)
    (sent_messages w) (f (stdout w)) (sleeps w) (ticks w) (is_running w)
    (aps_jobs w) (aps_running w).

Definition set_sleeps (f : list Q -> list Q) (w : World) : World :=
  mkWorld (db_admins w) (db_usage_reports w) (db_logs w) (panel_calls w)
    (sent_messages w) (stdout w) (f (sleeps w)) (ticks w) (is_running w)
    (aps_jobs w) (aps_running w).

Definition set_ticks (f : nat -> nat) (w : World) : World :=
  mkWorld (db_admins w) (db_usage_reports w) (db_logs w) (panel_calls w)
    (sent_messages w) (stdout w) (sleeps w) (f (ticks w)) (is_running w)
    (aps_jobs w) (aps_running w).

Definition set_is_running (b : bool) (w : World) : World :=
  mkWorld (db_admins w) (db_usage_reports w) (db_logs w) (panel_calls w)
    (sent_messages w) (stdout w) (sleeps w) (ticks w) b
    (aps_jobs w) (aps_running w).

Definition set_aps_jobs (f : gmap string Job.t -> gmap string Job.t) (w : World) : World :=
  mkWorld (db_admins w) (db_usage_reports w) (db_logs w) (panel_calls w)
    (sent_messages w) (stdout w) (sleeps w) (ticks w) (is_running w)
    (f (aps_jobs w)) (aps_running w).

Definition set_aps_running (b : bool) (w : World) : World :=
  mkWorld (db_admins w) (db_usage_reports w) (db_logs w) (panel_calls w)
    (sent_messages w) (stdout w) (sleeps w) (ticks w) (is_running w)
    (aps_jobs w) b.

(** ** Coroutines: state and exceptions *)

Inductive outcome (A : Type) : Type :=
| Ret (a : A)
| Raise (e : exn).
Arguments Ret {A} a.
Arguments Raise {A} e.

Definition M (A : Type) : Type := World -> outcome A * World.

#[global] Instance M_ret : MRet M := fun A a w => (Ret a, w).

#[global] Instance M_bind : MBind M := fun A B f m w =>
  match m w with
  | (Ret a, w') => f a w'
  | (Raise e, w') => (Raise e, w')
  end.

Definition raise {A : Type} (e : exn) : M A := fun w => (Raise e, w).

(** [try: body except Exception as e: handler e] *)
Definition try_except {A : Type} (body : M A) (handler : exn -> M A) : M A :=
  fun w =>
    match body w with
    | (Ret a, w') => (Ret a, w')
    | (Raise e, w') => handler e w'
    end.

(** A local variable that the [except] clause of a [try] reads: it is
    unbound until the assignment that opens the [try] body has completed. *)
Inductive local (A : Type) : Type :=
| Unbound
| Bound (a : A).
Arguments Unbound {A}.
Arguments Bound {A} a.

(** Reading a local: an unbound one raises [UnboundLocalError]. *)
Definition read_local {A : Type} (var : string) (x : local A) : M A :=
  match x with
  | Unbound => raise (UnboundLocalError var)
  | Bound a => mret a
  end.

(** [try: x = first; rest x  except Exception as e: handler x e], where
    the handler sees [x] unbound when [first] itself raised. *)
Definition try_assign_except {A B : Type} (first : M A) (rest : A -> M B)
    (handler : local A -> exn -> M B) : M B :=
  fun w =>
    match first w with
    | (Raise e, w') => handler Unbound e w'
    | (Ret a, w') => try_except (rest a) (handler (Bound a)) w'
    end.

(** [for x in xs: body x] *)
Fixpoint for_each {A : Type} (xs : list A) (body : A -> M unit) : M unit :=
  match xs with
  | [] => mret tt
  | x :: xs' => body x ;; for_each xs' body
  end.

(** A [for] loop that updates a local accumulator. *)
Fixpoint for_fold {A S : Type} (xs : list A) (body : S -> A -> M S) (s : S) : M S :=
  match xs with
  | [] => mret s
  | x :: xs' => s' ← body s x; for_fold xs' body s'
  end.

(** ** Primitive effects *)

Definition print (line : string) : M unit :=
  fun w => (Ret tt, set_stdout (fun l => l ++ [line]) w).

Definition asyncio_sleep (seconds : Q) : M unit :=
  fun w => (Ret tt, set_sleeps (fun l => l ++ [seconds]) w).

(** [s or alt] for an optional string [s]: [None] and the empty string are
    falsy. *)
Definition py_or (s : option string) (alt : string) : string :=
  match s with
  | Some (String c r) => String c r
  | _ => alt
  end.

(** Truthiness of a string. *)
Definition nonempty (s : string) : bool :=
  match s with
  | String _ _ => true
  | EmptyString => false
  end.

(** [str(n)] for an [int]. *)
Definition str_int (n : Z) : string := pretty n.

(** [int(x)] for a [float]: truncation towards zero. *)
Definition int_of_float (x : Q) : Z := Z.quot (Qnum x) (Z.pos (Qden x)).

Section WithEnv.
Context (E : Env).

(** [datetime.utcnow()] and [datetime.now()]: the next reading of the
    respective clock. *)
Definition datetime_utcnow : M Q :=
  fun w => (Ret (utcnow E (ticks w)), set_ticks S w).

Definition datetime_now : M Q :=
  fun w => (Ret (now E (ticks w)), set_ticks S w).

(** *** Quota Record Store ([db]) *)

(** Modelled from the spec: [get_admin(user_id) -> AdminAccount | null]. *)
Definition db_get_admin (uid : Z) : M (option Admin.t) :=
  fun w =>
    if get_admin_raises E uid then (Raise (CollaboratorError "db.get_admin"), w)
    else (Ret (List.find (fun a => Z.eqb (Admin.user_id a) uid) (db_admins w)), w).

(** Modelled from the spec: [get_admin_by_id(id) -> AdminAccount | null];
    an unset identifier finds nothing. *)
Definition db_get_admin_by_id (aid : option Z) : M (option Admin.t) :=
  fun w =>
    if get_admin_by_id_raises E aid
    then (Raise (CollaboratorError "db.get_admin_by_id"), w)
    else
      (Ret match aid with
           | Some i => List.find (fun a => Z.eqb (Admin.id a) i) (db_admins w)
           | None => None
           end, w).

(** Modelled from the spec: [get_all_admins() -> sequence of
    AdminAccount], inactive ones included. *)
Definition db_get_all_admins : M (list Admin.t) :=
  fun w =>
    if get_all_admins_raises E
    then (Raise (CollaboratorError "db.get_all_admins"), w)
    else (Ret (db_admins w), w).

(** Modelled from the spec: [add_usage_report(UsageReport) -> void],
    append-only. *)
Definition db_add_usage_report (r : UsageReportModel.t) : M unit :=
  fun w =>
    if add_usage_report_raises E r
    then (Raise (CollaboratorError "db.add_usage_report"), w)
    else (Ret tt, set_db_usage_reports (fun l => l ++ [r]) w).

(** Modelled from the spec: [add_log(entry) -> void]. *)
Definition db_add_log (l : LogModel.t) : M unit :=
  fun w =>
    if add_log_raises E l
    then (Raise (CollaboratorError "db.add_log"), w)
    else (Ret tt, set_db_logs (fun ls => ls ++ [l]) w).

(** *** Panel Client ([marzban_api]); every call is recorded *)

Definition marzban_api_get_admin_stats (username : string) : M AdminStats.t :=
  fun w =>
    let w' := set_panel_calls (fun l => l ++ [CallGetAdminStats username]) w in
    match get_admin_stats E username with
    | Some s => (Ret s, w')
    | None => (Raise (CollaboratorError "marzban_api.get_admin_stats"), w')
    end.

Definition marzban_api_get_users (username : string) : M (list PanelUser.t) :=
  fun w =>
    let w' := set_panel_calls (fun l => l ++ [CallGetUsers username]) w in
    match get_users E username with
    | Some us => (Ret us, w')
    | None => (Raise (CollaboratorError "marzban_api.get_users"), w')
    end.

Definition marzban_api_remove_user (username : string) : M bool :=
  fun w =>
    let w' := set_panel_calls (fun l => l ++ [CallRemoveUser username]) w in
    match remove_user E username with
    | Some ok => (Ret ok, w')
    | None => (Raise (CollaboratorError "marzban_api.remove_user"), w')
    end.

(** *** Bot, backup manager, configuration *)

(** [bot.send_message(chat, text)]: a message whose delivery raises is
    not sent. *)
Definition bot_send_message (chat : chat_id) (text : string) : M unit :=
  fun w =>
    if send_message_raises E chat text
    then (Raise (CollaboratorError "bot.send_message"), w)
    else (Ret tt, set_sent_messages (fun l => l ++ [(chat, text)]) w).

(** [BackupManager.create_backup] ([src/backup_manager.py]) wraps its
    whole body in [try ... except Exception] and returns
    [(False, str(e))] there: it never raises. *)
Definition backup_manager_create_backup (is_cron : bool) : M (bool * string) :=
  mret (create_backup E is_cron).

(** [config.MESSAGES[key]] *)
Definition config_MESSAGES (key : string) : M string :=
  match Config.MESSAGES (config E) !! key with
  | Some s => mret s
  | None => raise (KeyError key)
  end.

(** [template.format( **kwargs )] *)
Definition format (template : string) (kwargs : list (string * string)) : M string :=
  match str_format E template kwargs with
  | Some s => mret s
  | None => raise (ValueError "format")
  end.

End WithEnv.

(** ** Numbers *)

Definition Qlt_bool (x y : Q) : bool := negb (Qle_bool y x).

(** [max(a, b)] of Python: the first of the largest. *)
Definition py_max (a b : Q) : Q := if Qlt_bool a b then b else a.

(** [warning_levels = [0.6, 0.7, 0.8, 0.9]] *)
Definition warning_levels : list Q := [6 # 10; 7 # 10; 8 # 10; 9 # 10]%Q.

(** [any(level <= p < 1.0 for level in warning_levels)] *)
Definition any_level (p : Q) : bool :=
  existsb (fun level => Qle_bool level p && Qlt_bool p 1) warning_levels.

(** ** [MonitoringScheduler] *)

Section Scheduler.
Context (E : Env).

(** [admin.marzban_username or admin.username or str(admin.user_id)] *)
Definition admin_username_of (admin : Admin.t) : string :=
  py_or (Admin.marzban_username admin)
    (py_or (Admin.username admin) (str_int (Admin.user_id admin))).

(** The dict literal handed to [LimitCheckResult] as [limits_data]. *)
Definition limits_data_of (admin : Admin.t) (admin_stats : AdminStats.t)
    (elapsed_seconds time_percentage user_percentage traffic_percentage : Q)
    : gmap string Q :=
  <["user_percentage" := user_percentage]>
  (<["traffic_percentage" := traffic_percentage]>
  (<["time_percentage" := time_percentage]>
  (<["current_users" := inject_Z (AdminStats.total_users admin_stats)]>
  (<["max_users" := inject_Z (Admin.max_users admin)]>
  (<["current_traffic" := 0%Q]>
  (<["max_traffic" := inject_Z (Admin.max_total_traffic admin)]>
  (<["current_time" := elapsed_seconds]>
  (<["max_time" := inject_Z (Admin.max_total_time admin)]> ∅)))))))).

Definition check_admin_limits_by_id (admin_id : Z) : M LimitCheckResult.t :=
  try_assign_except
    (db_get_admin_by_id E (Some admin_id))
    (fun admin =>
       match admin with
       | None => mret (LimitCheckResult.neutral 0)
       | Some admin =>
         if negb (Admin.is_active admin)
         then mret (LimitCheckResult.neutral (Admin.user_id admin))
         else
           let admin_username := admin_username_of admin in
           admin_stats ← marzban_api_get_admin_stats E admin_username;
           let created_at := Admin.created_at admin in
           now ← datetime_utcnow E;
           let elapsed_seconds := (now - created_at)%Q in
           let time_percentage :=
             if (0 <? Admin.max_total_time admin)%Z
             then (elapsed_seconds / inject_Z (Admin.max_total_time admin))%Q
             else 0%Q in
           let user_percentage :=
             if (0 <? Admin.max_users admin)%Z
             then (inject_Z (AdminStats.total_users admin_stats)
                   / inject_Z (Admin.max_users admin))%Q
             else 0%Q in
           let traffic_percentage :=
             if (0 <? Admin.max_total_traffic admin)%Z
             then (inject_Z (AdminStats.total_traffic_used admin_stats)
                   / inject_Z (Admin.max_total_traffic admin))%Q
             else 0%Q in
           let limits_exceeded :=
             Qle_bool 1 time_percentage
             || Qle_bool 1 user_percentage
             || Qle_bool 1 traffic_percentage in
           let warning_needed :=
             existsb (fun b : bool => b)
               [any_level time_percentage;
                any_level user_percentage;
                any_level traffic_percentage] in
           let report :=
             UsageReportModel.mk
               (Admin.user_id admin)
               now
               (AdminStats.total_users admin_stats)
               (int_of_float elapsed_seconds)
               (AdminStats.total_traffic_used admin_stats)
               "[]" in
           db_add_usage_report E report;;
           mret (LimitCheckResult.mk
                   (Admin.user_id admin)
                   (Some (Admin.id admin))
                   limits_exceeded
                   warning_needed
                   (limits_data_of admin admin_stats elapsed_seconds
                      time_percentage user_percentage traffic_percentage))
       end)
    (fun admin e =>
       print ("Error checking admin limits: " +:+ str_exn e);;
       admin ← read_local "admin" admin;
       mret (LimitCheckResult.neutral
               match admin with
               | Some a => Admin.user_id a
               | None => 0%Z
               end)).

Definition check_admin_limits (admin_user_id : Z) : M LimitCheckResult.t :=
  admin ← db_get_admin E admin_user_id;
  match admin with
  | None => mret (LimitCheckResult.neutral admin_user_id)
  | Some admin => check_admin_limits_by_id (Admin.id admin)
  end.

(** In both [try] blocks of the reaper the only statement that can
    raise comes before any update of [total_cleaned], so each handler
    resumes with the count the block started from. *)
Definition cleanup_expired_users : M unit :=
  try_except
    (admins ← db_get_all_admins E;
     total_cleaned ←
       for_fold admins
         (fun total_cleaned admin =>
            if negb (Admin.is_active admin) then mret total_cleaned
            else
              let admin_username := admin_username_of admin in
              try_except
                (users ← marzban_api_get_users E admin_username;
                 total_cleaned ←
                   for_fold users
                     (fun total_cleaned user =>
                        try_except
                          (success ← marzban_api_remove_user E (PanelUser.username user);
                           total_cleaned ←
                             (if success : bool
                              then
                                print ("Removed expired user: "
                                       +:+ PanelUser.username user
                                       +:+ " (admin: " +:+ admin_username +:+ ")");;
                                mret (total_cleaned + 1)%Z
                              else mret total_cleaned);
                           asyncio_sleep (1 # 10);;
                           mret total_cleaned)
                          (fun e =>
                             print ("Error removing expired user "
                                    +:+ PanelUser.username user +:+ ": " +:+ str_exn e);;
                             mret total_cleaned))
                     total_cleaned;
                 asyncio_sleep (1 # 2);;
                 mret total_cleaned)
                (fun e =>
                   print ("Error cleaning expired users for admin "
                          +:+ str_int (Admin.user_id admin) +:+ ": " +:+ str_exn e);;
                   mret total_cleaned))
         0%Z;
     (if (0 <? total_cleaned)%Z
      then
        timestamp ← datetime_now E;
        db_add_log E
          (LogModel.mk None "expired_users_cleanup"
             ("Automatically cleaned up " +:+ str_int total_cleaned +:+ " expired users")
             timestamp)
      else mret tt);;
     t ← datetime_now E;
     print ("Expired users cleanup completed. Removed " +:+ str_int total_cleaned
            +:+ " users at " +:+ str_datetime E t))
    (fun e => print ("Error in cleanup_expired_users: " +:+ str_exn e)).

Definition run_auto_backup : M unit :=
  try_except
    (t ← datetime_now E;
     print ("Running auto backup at " +:+ str_datetime E t);;
     r ← backup_manager_create_backup E true;
     let '(success, message) := r in
     if success : bool
     then
       timestamp ← datetime_now E;
       db_add_log E
         (LogModel.mk None "auto_backup" ("Auto backup created: " +:+ message) timestamp);;
       if nonempty (Config.TELEGRAM_ADMIN_CHAT_ID (config E))
       then
         template ← config_MESSAGES E "backup_success";
         text ← format E template [("filename", message)];
         bot_send_message E (ChatStr (Config.TELEGRAM_ADMIN_CHAT_ID (config E))) text
       else mret tt
     else print ("Auto backup failed: " +:+ message))
    (fun e => print ("Error in auto backup: " +:+ str_exn e)).

(** [result.limits_data[key]] *)
Definition limits_data_get (result : LimitCheckResult.t) (key : string) : M Q :=
  match LimitCheckResult.limits_data result !! key with
  | Some v => mret v
  | None => raise (KeyError key)
  end.

Definition handle_limit_warning (result : LimitCheckResult.t) : M unit :=
  try_except
    (admin ← db_get_admin_by_id E (LimitCheckResult.admin_id result);
     match admin with
     | None => mret tt
     | Some admin =>
       template ← config_MESSAGES E "limit_warning";
       user_percentage ← limits_data_get result "user_percentage";
       traffic_percentage ← limits_data_get result "traffic_percentage";
       time_percentage ← limits_data_get result "time_percentage";
       let percent :=
         int_of_float
           (py_max (py_max user_percentage traffic_percentage) time_percentage * 100)%Q in
       message ← format E template [("percent", str_int percent)];
       bot_send_message E (ChatInt (Admin.user_id admin)) message
     end)
    (fun e => print ("Error sending limit warning: " +:+ str_exn e)).

Definition handle_limit_exceeded (result : LimitCheckResult.t) : M unit :=
  try_except
    (admin ← db_get_admin_by_id E (LimitCheckResult.admin_id result);
     match admin with
     | None => mret tt
     | Some admin =>
       text ← config_MESSAGES E "limit_exceeded";
       bot_send_message E (ChatInt (Admin.user_id admin)) text
     end)
    (fun e => print ("Error sending limit exceeded message: " +:+ str_exn e)).

(** The body of the [for admin in admins] loop of [monitor_all_admins]. *)
Definition monitor_admin (admin : Admin.t) : M unit :=
  try_except
    (result ← check_admin_limits_by_id (Admin.id admin);
     (if LimitCheckResult.exceeded result then handle_limit_exceeded result
      else if LimitCheckResult.warning result then handle_limit_warning result
      else mret tt);;
     asyncio_sleep 1)
    (fun e =>
       print ("Error monitoring admin panel " +:+ str_int (Admin.id admin)
              +:+ " (user " +:+ str_int (Admin.user_id admin) +:+ "): " +:+ str_exn e)).

Definition monitor_all_admins : M unit :=
  try_except
    (t ← datetime_now E;
     print ("Starting monitoring check at " +:+ str_datetime E t);;
     (if Config.AUTO_DELETE_EXPIRED_USERS (config E)
      then cleanup_expired_users
      else mret tt);;
     admins ← db_get_all_admins E;
     let active_admins := List.filter Admin.is_active admins in
     match active_admins with
     | [] => print "No active admins to monitor"
     | _ :: _ =>
       print ("Monitoring " +:+ str_int (Z.of_nat (length active_admins))
              +:+ " active admins");;
       for_each admins monitor_admin;;
       t ← datetime_now E;
       print ("Monitoring check completed at " +:+ str_datetime E t)
     end)
    (fun e => print ("Error in monitor_all_admins: " +:+ str_exn e)).

(** *** Orchestrator: [start] and [stop] *)

(** [scheduler.add_job(..., id=id, replace_existing=True)] *)
Definition scheduler_add_job (id : string) (job : Job.t) : M unit :=
  fun w => (Ret tt, set_aps_jobs (fun jobs => <[id := job]> jobs) w).

(** [scheduler.start()] *)
Definition scheduler_start : M unit :=
  fun w =>
    if aps_running w then (Raise SchedulerAlreadyRunningError, w)
    else (Ret tt, set_aps_running true w).

(** [scheduler.shutdown(wait=False)]; the in-memory job store drops its
    jobs. *)
Definition scheduler_shutdown : M unit :=
  fun w =>
    if aps_running w
    then (Ret tt, set_aps_running false (set_aps_jobs (fun _ => ∅) w))
    else (Raise SchedulerNotRunningError, w).

(** [expr.split()] on ASCII white space. *)
Definition is_space (c : Ascii.ascii) : bool :=
  let n := Ascii.nat_of_ascii c in
  (n =? 32)%nat || ((9 <=? n)%nat && (n <=? 13)%nat)
  || ((28 <=? n)%nat && (n <=? 31)%nat).

Fixpoint split_ws_go (s : string) (cur : string) : list string :=
  match s with
  | EmptyString => if nonempty cur then [cur] else []
  | String c s' =>
    if is_space c
    then (if nonempty cur then cur :: split_ws_go s' "" else split_ws_go s' "")
    else split_ws_go s' (cur +:+ String c "")
  end.

Definition split_ws (s : string) : list string := split_ws_go s "".

(** [CronTrigger.from_crontab(expr)]: five white-space separated fields
    or [ValueError]; the fields themselves are kept as written. *)
Definition CronTrigger_from_crontab (expr : string) : M trigger :=
  match split_ws expr with
  | [minute; hour; day; month; day_of_week] =>
      mret (CronTrigger minute hour day month day_of_week)
  | values =>
      raise (ValueError ("Wrong number of fields; got "
                         +:+ str_int (Z.of_nat (length values)) +:+ ", expected 5"))
  end.

(** The dict literal of [start]. *)
Definition cron_table : gmap backup_interval string :=
  <[IntervalStr "daily" := "0 0 * * *"]>
  (<[IntervalStr "weekly" := "0 0 * * 0"]>
  (<[IntervalStr "monthly" := "0 0 1 * *"]> ∅)).

(** [{...}.get(config.BACKUP_INTERVAL, "0 0 * * *")] *)
Definition cron_expression_of (v : backup_interval) : string :=
  default "0 0 * * *" (cron_table !! v).

(** [str(config.BACKUP_INTERVAL)] *)
Definition str_backup_interval (v : backup_interval) : string :=
  match v with
  | IntervalInt n => str_int n
  | IntervalStr s => s
  end.

Definition admin_monitor_job : Job.t :=
  Job.mk job_monitor_all_admins
    (IntervalTrigger (Config.MONITORING_INTERVAL (config E)))
    "Admin Limit Monitor" 1.

Definition start : M unit :=
  fun w =>
    if is_running w then print "Scheduler is already running" w
    else
      (print "Starting monitoring scheduler...";;
       scheduler_add_job "admin_monitor" admin_monitor_job;;
       let cron_expression :=
         cron_expression_of (Config.BACKUP_INTERVAL (config E)) in
       trig ← CronTrigger_from_crontab cron_expression;
       scheduler_add_job "auto_backup" (Job.mk job_run_auto_backup trig "Auto Backup" 1);;
       scheduler_start;;
       (fun w => (Ret tt, set_is_running true w));;
       print ("Scheduler started. Monitoring every "
              +:+ str_int (Config.MONITORING_INTERVAL (config E))
              +:+ " seconds, Backup: "
              +:+ str_backup_interval (Config.BACKUP_INTERVAL (config E)) +:+ ".");;
       monitor_all_admins;;
       run_auto_backup) w.

Definition stop : M unit :=
  fun w =>
    if negb (is_running w) then (Ret tt, w)
    else
      (print "Stopping scheduler...";;
       scheduler_shutdown;;
       (fun w => (Ret tt, set_is_running false w));;
       print "Scheduler stopped.") w.

End Scheduler.

(** [MonitoringScheduler(bot)]: a fresh orchestrator over a store holding
    [admins]. *)
Definition init_scheduler (admins : list Admin.t) : World :=
  mkWorld admins [] [] [] [] [] [] 0 false ∅ false.

(** ** Configuration loading ([config.py]) *)

(** [BACKUP_INTERVAL]: [int(raw)] when it parses, the raw string when
    [int] raises [ValueError].  [py_int] stands for Python's [int] on
    strings. *)
Definition load_BACKUP_INTERVAL (py_int : string -> option Z) (raw : string)
    : backup_interval :=
  match py_int raw with
  | Some n => IntervalInt n
  | None => IntervalStr raw
  end.

(** ** The success path of [check_admin_limits_by_id], spelled out

    What the function computes from world [w] when the store finds the
    active [admin] and the panel answers [admin_stats]. *)

Section CheckValues.
Context (E : Env) (w : World) (admin : Admin.t) (admin_stats : AdminStats.t).

Definition elapsed_at : Q := (utcnow E (ticks w) - Admin.created_at admin)%Q.

Definition time_percentage_at : Q :=
  if (0 <? Admin.max_total_time admin)%Z
  then (elapsed_at / inject_Z (Admin.max_total_time admin))%Q else 0%Q.

Definition user_percentage_at : Q :=
  if (0 <? Admin.max_users admin)%Z
  then (inject_Z (AdminStats.total_users admin_stats)
        / inject_Z (Admin.max_users admin))%Q else 0%Q.

Definition traffic_percentage_at : Q :=
  if (0 <? Admin.max_total_traffic admin)%Z
  then (inject_Z (AdminStats.total_traffic_used admin_stats)
        / inject_Z (Admin.max_total_traffic admin))%Q else 0%Q.

Definition report_at : UsageReportModel.t :=
  UsageReportModel.mk (Admin.user_id admin) (utcnow E (ticks w))
    (AdminStats.total_users admin_stats) (int_of_float elapsed_at)
    (AdminStats.total_traffic_used admin_stats) "[]".

Definition result_at : LimitCheckResult.t :=
  LimitCheckResult.mk (Admin.user_id admin) (Some (Admin.id admin))
    (Qle_bool 1 time_percentage_at || Qle_bool 1 user_percentage_at
     || Qle_bool 1 traffic_percentage_at)
    (existsb (fun b : bool => b)
       [any_level time_percentage_at; any_level user_percentage_at;
        any_level traffic_percentage_at])
    (limits_data_of admin admin_stats elapsed_at
       time_percentage_at user_percentage_at traffic_percentage_at).

Definition world_after_check : World :=
  set_db_usage_reports (fun l => l ++ [report_at])
    (set_ticks S
       (set_panel_calls
          (fun l => l ++ [CallGetAdminStats (admin_username_of admin)]) w)).

End CheckValues.

(** ** A sample deployment

    Four admins: [alice] (ten users out of ten, 700 of 1000 seconds, 500
    of 1000 bytes), [bob] whose panel statistics cannot be fetched,
    [carol] who is deactivated, and [dave] without any ceiling. *)

Definition alice : Admin.t :=
  Admin.mk 1 101 (Some "alice") None true 0 10 1000 1000.

Definition bob : Admin.t :=
  Admin.mk 2 102 (Some "bob") (Some "bob_panel") true 0 10 1000 1000.

Definition carol : Admin.t :=
  Admin.mk 3 103 (Some "carol") None false 0 10 1000 1000.

Definition dave : Admin.t :=
  Admin.mk 4 104 None None true 0 0 0 0.

Definition sample_admins : list Admin.t := [alice; bob; carol; dave].

(** Two more admins, for the scenarios of the specification: [erin] has
    only a user ceiling, which she has reached; [frank] has only a time
    ceiling, of which 700 seconds out of 1000 have passed. *)
Definition erin : Admin.t :=
  Admin.mk 5 105 (Some "erin") None true 0 10 0 0.

Definition frank : Admin.t :=
  Admin.mk 6 106 (Some "frank") None true 0 0 1000 0.

Definition sample_MESSAGES : gmap string string :=
  <["backup_success" := "Backup created: {filename}"]>
  (<["limit_exceeded" := "Your panel has reached its limit."]>
  (<["limit_warning" := "You have used {percent}% of your limit."]> ∅)).

Definition sample_config : Config.t :=
  Config.mk 600 true (IntervalInt 6) "-1001" sample_MESSAGES.

(** The panel knows two users of every admin: [u1], still valid, and
    [u2], expired. *)
Definition sample_users : list PanelUser.t :=
  [PanelUser.mk "u1" false; PanelUser.mk "u2" true].

(** [str.format] with a single keyword, for the sample: the template
    followed by the value. *)
Definition sample_format (template : string) (kwargs : list (string * string))
    : option string :=
  match kwargs with
  | [(_, v)] => Some (template +:+ " <- " +:+ v)
  | _ => None
  end.

Definition sample_env_with (backup : bool * string) : Env :=
  mkEnv sample_config
    (fun _ => false) (fun _ => false) false (fun _ => false) (fun _ => false)
    (fun u => if String.eqb u "bob_panel" then None else Some (AdminStats.mk 10 500))
    (fun _ => Some sample_users)
    (fun _ => Some true)
    (fun _ => backup)
    (fun _ _ => false)
    (fun _ => 700%Q) (fun _ => 700%Q)
    (fun _ => "2026-01-01 00:00:00")
    sample_format.

Definition sample_env : Env := sample_env_with (true, "marzban_backup.tar.gz").


(** The same deployment with a store whose [get_admin_by_id] raises. *)
Definition broken_store_env : Env :=
  mkEnv sample_config
    (fun _ => false) (fun _ => true) false (fun _ => false) (fun _ => false)
    (get_admin_stats sample_env) (get_users sample_env) (remove_user sample_env)
    (create_backup sample_env) (send_message_raises sample_env)
    (utcnow sample_env) (now sample_env) (str_datetime sample_env)
    (str_format sample_env).

Definition sample_world : World := init_scheduler sample_admins.

(** ** Frames: what a coroutine leaves untouched *)

(** [keeps f m]: running [m] never changes the component [f] of the
    world, whether it returns or raises. *)
Definition keeps {A T : Type} (f : World -> T) (m : M A) : Prop :=
  forall w, f (m w).2 = f w.

(** The store as [check_admin_limits_by_id] sees it answering. *)
Definition store_answers (E : Env) : Prop :=
  get_all_admins_raises E = false
  /\ (forall aid, get_admin_by_id_raises E aid = false)
  /\ (forall r, add_usage_report_raises E r = false).

(** The notification that [handle_limit_exceeded] delivers for [admin],
    if any. *)
Definition exceeded_notification (E : Env) (admin : Admin.t)
    : list (chat_id * string) :=
  match Config.MESSAGES (config E) !! "limit_exceeded" with
  | Some text =>
      if send_message_raises E (ChatInt (Admin.user_id admin)) text then []
      else [(ChatInt (Admin.user_id admin), text)]
  | None => []
  end.

(** An admin for whom a cycle stores a usage report: active, with panel
    statistics that can be fetched. *)
Definition reported (E : Env) (a : Admin.t) : bool :=
  Admin.is_active a
  && match get_admin_stats E (admin_username_of a) with
     | Some _ => true
     | None => false
     end.



(** The orchestrator's own state: the running flag, the job registry and
    the timer. *)
Definition orchestrator (w : World) : bool * gmap string Job.t * bool :=
  (is_running w, aps_jobs w, aps_running w).

(** What a prime run can touch: everything but the orchestrator's state
    and the admin rows. *)
Definition before_prime_run (w w1 : World) : Prop :=
  db_admins w1 = db_admins w
  /\ db_usage_reports w1 = db_usage_reports w
  /\ db_logs w1 = db_logs w
  /\ panel_calls w1 = panel_calls w
  /\ sent_messages w1 = sent_messages w
  /\ ticks w1 = ticks w.

(** The [auto_backup] job registered for a trigger. *)
Definition auto_backup_job (trig : trigger) : Job.t :=
  Job.mk job_run_auto_backup trig "Auto Backup" 1.

(** The running flag and the timer agree. *)
Definition consistent (w : World) : Prop := aps_running w = is_running w.

(** ** Further vocabulary for the properties of the scheduler *)

(** [grows f P m]: running [m] only ever appends to the list [f] of the
    world, and everything it appends satisfies [P]. *)
Definition grows {A T : Type} (f : World -> list T) (P : T -> Prop) (m : M A) : Prop :=
  forall w, exists new, f (m w).2 = f w ++ new /\ Forall P new.

(** A panel call that only reads statistics. *)
Definition is_stats_call (c : panel_call) : Prop :=
  match c with
  | CallGetAdminStats _ => True
  | _ => False
  end.

(** The sample deployment with the reaper switched off, a weekly backup
    and no operator channel. *)
Definition quiet_config : Config.t :=
  Config.mk 600 false (IntervalStr "weekly") "" sample_MESSAGES.

Definition quiet_env : Env :=
  mkEnv quiet_config
    (get_admin_raises sample_env) (get_admin_by_id_raises sample_env)
    (get_all_admins_raises sample_env) (add_usage_report_raises sample_env)
    (add_log_raises sample_env)
    (get_admin_stats sample_env) (get_users sample_env) (remove_user sample_env)
    (create_backup sample_env) (send_message_raises sample_env)
    (utcnow sample_env) (now sample_env) (str_datetime sample_env)
    (str_format sample_env).

(** ** The reaper, step by step *)

(** The body of the [for user in users] loop of [cleanup_expired_users],
    as a function of the running count. *)
Definition reaper_user_step (E : Env) (admin_username : string)
    (total_cleaned : Z) (user : PanelUser.t) : M Z :=
  try_except
    (success ← marzban_api_remove_user E (PanelUser.username user);
     total_cleaned ←
       (if success : bool
        then
          print ("Removed expired user: "
                 +:+ PanelUser.username user
                 +:+ " (admin: " +:+ admin_username +:+ ")");;
          mret (total_cleaned + 1)%Z
        else mret total_cleaned);
     asyncio_sleep (1 # 10);;
     mret total_cleaned)
    (fun e =>
       print ("Error removing expired user "
              +:+ PanelUser.username user +:+ ": " +:+ str_exn e);;
       mret total_cleaned).

(** The body of its [for admin in admins] loop. *)
Definition reaper_admin_step (E : Env) (total_cleaned : Z) (admin : Admin.t) : M Z :=
  if negb (Admin.is_active admin) then mret total_cleaned
  else
    let admin_username := admin_username_of admin in
    try_except
      (users ← marzban_api_get_users E admin_username;
       total_cleaned ←
         for_fold users (reaper_user_step E admin_username) total_cleaned;
       asyncio_sleep (1 # 2);;
       mret total_cleaned)
      (fun e =>
         print ("Error cleaning expired users for admin "
                +:+ str_int (Admin.user_id admin) +:+ ": " +:+ str_exn e);;
         mret total_cleaned).

(** [remove_user] answered [True] for this user. *)
Definition removal_succeeds (E : Env) (user : PanelUser.t) : bool :=
  match remove_user E (PanelUser.username user) with
  | Some true => true
  | _ => false
  end.

(** [remove_user] answered at all (it did not raise). *)
Definition removal_returns (E : Env) (user : PanelUser.t) : bool :=
  match remove_user E (PanelUser.username user) with
  | Some _ => true
  | None => false
  end.

(** The users the panel lists for an admin; none when the listing raises. *)
Definition listed_users (E : Env) (admin : Admin.t) : list PanelUser.t :=
  match get_users E (admin_username_of admin) with
  | Some users => users
  | None => []
  end.

(** The panel calls the reaper makes for one active admin. *)
Definition reaper_calls_of (E : Env) (admin : Admin.t) : list panel_call :=
  CallGetUsers (admin_username_of admin)
  :: List.map (fun u => CallRemoveUser (PanelUser.username u)) (listed_users E admin).

(** The pauses the reaper makes for one active admin. *)
Definition reaper_sleeps_of (E : Env) (admin : Admin.t) : list Q :=
  match get_users E (admin_username_of admin) with
  | Some users =>
      List.map (fun _ => (1 # 10)%Q) (List.filter (removal_returns E) users) ++ [(1 # 2)%Q]
  | None => []
  end.

(** The number of removals that succeeded in one pass over [admins]. *)
Definition removed_total (E : Env) (admins : list Admin.t) : Z :=
  Z.of_nat
    (length
       (List.concat
          (List.map (fun a => List.filter (removal_succeeds E) (listed_users E a))
             (List.filter Admin.is_active admins)))).

(** What the reaper leaves alone while it loops. *)
Definition reaper_frame (w : World) :=
  (db_admins w, db_usage_reports w, db_logs w, sent_messages w, ticks w,
   orchestrator w).

(** ** Notifications of a cycle *)

(** The notification that [handle_limit_warning] delivers for [admin]
    with the given percent, if any. *)
Definition warning_notification (E : Env) (admin : Admin.t) (percent : Z)
    : list (chat_id * string) :=
  match Config.MESSAGES (config E) !! "limit_warning" with
  | Some template =>
      match str_format E template [("percent", str_int percent)] with
      | Some text =>
          if send_message_raises E (ChatInt (Admin.user_id admin)) text then []
          else [(ChatInt (Admin.user_id admin), text)]
      | None => []
      end
  | None => []
  end.

(** The percent that [handle_limit_warning] computes from the three
    percentages of an evaluation. *)
Definition warning_percent_at (E : Env) (w : World) (admin : Admin.t)
    (admin_stats : AdminStats.t) : Z :=
  int_of_float
    (py_max (py_max (user_percentage_at admin admin_stats)
                    (traffic_percentage_at admin admin_stats))
            (time_percentage_at E w admin) * 100)%Q.

(** What the loop body of [monitor_all_admins] sends after the evaluation
    of [admin] against [admin_stats] in world [w]. *)
Definition notification_of (E : Env) (w : World) (admin : Admin.t)
    (admin_stats : AdminStats.t) : list (chat_id * string) :=
  if LimitCheckResult.exceeded (result_at E w admin admin_stats)
  then exceeded_notification E admin
  else if LimitCheckResult.warning (result_at E w admin admin_stats)
  then warning_notification E admin (warning_percent_at E w admin admin_stats)
  else [].

(** A usage report that records what the panel said about the admin. *)
Definition report_matches (E : Env) (r : UsageReportModel.t) (a : Admin.t) : Prop :=
  UsageReportModel.admin_user_id r = Admin.user_id a
  /\ UsageReportModel.users_data r = "[]"
  /\ UsageReportModel.current_total_time r
     = int_of_float (UsageReportModel.check_time r - Admin.created_at a)%Q
  /\ exists s,
       get_admin_stats E (admin_username_of a) = Some s
       /\ UsageReportModel.current_users r = AdminStats.total_users s
       /\ UsageReportModel.current_total_traffic r = AdminStats.total_traffic_used s.

(** What a handler leaves alone besides the outbox and the console. *)
Definition dispatch_frame (w : World) :=
  (db_admins w, db_usage_reports w, panel_calls w, sleeps w).

(** ** The orchestrator over time *)

(** The entry points of [MonitoringScheduler]. *)
Inductive operation : Type :=
| OpStart
| OpStop
| OpMonitorAllAdmins
| OpRunAutoBackup
| OpCleanupExpiredUsers
| OpCheckAdminLimits (admin_user_id : Z)
| OpCheckAdminLimitsById (admin_id : Z).

(** The world an operation leaves, whether it returned or raised. *)
Definition perform (E : Env) (w : World) (op : operation) : World :=
  match op with
  | OpStart => (start E w).2
  | OpStop => (stop w).2
  | OpMonitorAllAdmins => (monitor_all_admins E w).2
  | OpRunAutoBackup => (run_auto_backup E w).2
  | OpCleanupExpiredUsers => (cleanup_expired_users E w).2
  | OpCheckAdminLimits admin_user_id => (check_admin_limits E admin_user_id w).2
  | OpCheckAdminLimitsById admin_id => (check_admin_limits_by_id E admin_id w).2
  end.

(** The world after a history of operations on a fresh scheduler. *)
Definition world_after (E : Env) (admins : list Admin.t) (history : list operation)
    : World :=
  fold_left (perform E) history (init_scheduler admins).



(** The dict that [get_status] returns. *)
Module Status.
Record t : Type := mk {
  running : bool;
  jobs : Z;
  next_monitor_run : option string;
  next_backup_run : option string
}.
End Status.

(** [get_status]; [str_next_run_time job] stands for
    [str(job.next_run_time)], which the timer computes.  [get_job] returns
    [None] for an unknown id, and reading [next_run_time] off [None]
    raises [AttributeError]: that is the result [None] here. *)
Definition get_status (str_next_run_time : Job.t -> string) (w : World)
    : option Status.t :=
  let running := is_running w in
  let jobs := if is_running w then Z.of_nat (size (aps_jobs w)) else 0%Z in
  next_monitor_run ←
    (if is_running w
     then job ← aps_jobs w !! "admin_monitor"; Some (Some (str_next_run_time job))
     else Some None);
  next_backup_run ←
    (if is_running w
     then job ← aps_jobs w !! "auto_backup"; Some (Some (str_next_run_time job))
     else Some None);
  Some (Status.mk running jobs next_monitor_run next_backup_run).

(** ** More of [config.py]: the list of sudo admins

    Strings are taken over ASCII here: [is_space] is Python's white space
    on that range. *)

(** [s.split(sep)] for a one-character separator: the pieces between the
    separators, empty ones included; [cur] is the piece being read. *)
Fixpoint split_on (sep : Ascii.ascii) (s : string) (cur : string) : list string :=
  match s with
  | EmptyString => [cur]
  | String c s' =>
    if Ascii.eqb c sep then cur :: split_on sep s' ""
    else split_on sep s' (cur +:+ String c "")
  end.

Definition py_split (sep : Ascii.ascii) (s : string) : list string :=
  split_on sep s "".

(** Truthiness of [x.strip()]: some character of [x] is not white space. *)
Fixpoint strip_is_nonempty (x : string) : bool :=
  match x with
  | EmptyString => false
  | String c x' => negb (is_space c) || strip_is_nonempty x'
  end.

(** [[int(x) for x in pieces if x.strip()]]; [None] when some [int(x)]
    raises [ValueError].  [py_int] stands for Python's [int] on strings. *)
Fixpoint ints_of_pieces (py_int : string -> option Z) (pieces : list string)
    : option (list Z) :=
  match pieces with
  | [] => Some []
  | x :: rest =>
    if strip_is_nonempty x
    then n ← py_int x; ns ← ints_of_pieces py_int rest; Some (n :: ns)
    else ints_of_pieces py_int rest
  end.

(** The separator of the list, [","]. *)
Definition comma : Ascii.ascii := Ascii.ascii_of_nat 44.

(** [SUDO_ADMINS], from the value [raw] of the environment variable. *)
Definition load_SUDO_ADMINS (py_int : string -> option Z) (raw : string)
    : option (list Z) :=
  ints_of_pieces py_int (py_split comma raw).

(** ** The backup handlers ([handlers/backup_handlers.py])

    The three callback handlers of the operator's backup menu.  A handler
    runs over the trace of what it has done to the outside so far; the
    backup manager and the Telegram calls are collaborators. *)

Module BackupHandlers.

Record Button : Type := mkButton {
  text : string;
  callback_data : string
}.

Record Callback : Type := mkCallback {
  from_user_id : Z;
  data : string
}.

(** What a handler does to the outside, in order. *)
Inductive effect : Type :=
| Answer (text : option string) (show_alert : option bool)
| EditText (text : string) (inline_keyboard : list (list Button))
| CreateBackup
| ListBackups
| RestoreBackup (backup_filename : string).

Inductive error : Type :=
| KeyError (key : string)
| IndexError
| FormatError
| TelegramError
| BackupDirError.

(** [config] as the handlers read it, and the collaborators.
    [BackupManager.create_backup] and [restore_backup] catch every
    exception themselves; [list_backups] does not ([None]: it raised). *)
Record Env : Type := mkEnv {
  SUDO_ADMINS : list Z;
  MESSAGES : gmap string string;
  BUTTONS : gmap string string;
  manager_create_backup : bool * string;
  manager_list_backups : option (list string);
  manager_restore_backup : string -> bool * string;
  str_format : string -> list (string * string) -> option string;
  telegram_raises : effect -> bool
}.

Inductive result (A : Type) : Type :=
| Ok (a : A)
| Fail (e : error).
Arguments Ok {A} a.
Arguments Fail {A} e.

Definition H (A : Type) : Type := list effect -> result A * list effect.

#[local] Instance H_ret : MRet H := fun A a tr => (Ok a, tr).

#[local] Instance H_bind : MBind H := fun A B f m tr =>
  match m tr with
  | (Ok a, tr') => f a tr'
  | (Fail e, tr') => (Fail e, tr')
  end.

Definition fail {A : Type} (e : error) : H A := fun tr => (Fail e, tr).

(** The fixed texts of the handlers, as the source file has them. *)
Definition unauthorized_text : string := "ØºÛŒØ±Ù…Ø¬Ø§Ø²".
Definition no_backup_text : string := "Ù‡ÛŒÚ† Ø¨Ú©Ø§Ù¾ÛŒ ÛŒØ§ÙØª Ù†Ø´Ø¯.".
Definition choose_backup_text : string := "Ø§Ù†ØªØ®Ø§Ø¨ Ø¨Ú©Ø§Ù¾ Ø¨Ø±Ø§ÛŒ Ø±ÛŒØ³ØªÙˆØ±:".

(** [s.split(sep, 1)] for a one-character separator: the part before the
    first separator and the rest, or [s] alone. *)
Fixpoint split_once_go (sep : Ascii.ascii) (s : string) (cur : string) : list string :=
  match s with
  | EmptyString => [cur]
  | String c s' =>
    if Ascii.eqb c sep then [cur; s']
    else split_once_go sep s' (cur +:+ String c "")
  end.

Definition split_once (sep : Ascii.ascii) (s : string) : list string :=
  split_once_go sep s "".

(** ["_"] *)
Definition underscore : Ascii.ascii := Ascii.ascii_of_nat 95.

Section WithEnv.
Context (E : Env).

(** A Telegram call: recorded unless it raises. *)
Definition telegram (e : effect) : H unit :=
  fun tr =>
    if telegram_raises E e then (Fail TelegramError, tr)
    else (Ok tt, tr ++ [e]).

Definition callback_answer (text : option string) (show_alert : option bool) : H unit :=
  telegram (Answer text show_alert).

Definition message_edit_text (text : string) (inline_keyboard : list (list Button))
    : H unit :=
  telegram (EditText text inline_keyboard).

Definition backup_manager_create_backup : H (bool * string) :=
  fun tr => (Ok (manager_create_backup E), tr ++ [CreateBackup]).

Definition backup_manager_list_backups : H (list string) :=
  fun tr =>
    match manager_list_backups E with
    | Some backups => (Ok backups, tr ++ [ListBackups])
    | None => (Fail BackupDirError, tr ++ [ListBackups])
    end.

Definition backup_manager_restore_backup (backup_filename : string) : H (bool * string) :=
  fun tr => (Ok (manager_restore_backup E backup_filename),
             tr ++ [RestoreBackup backup_filename]).

Definition config_MESSAGES (key : string) : H string :=
  match MESSAGES E !! key with
  | Some s => mret s
  | None => fail (KeyError key)
  end.

Definition config_BUTTONS (key : string) : H string :=
  match BUTTONS E !! key with
  | Some s => mret s
  | None => fail (KeyError key)
  end.

Definition format (template : string) (kwargs : list (string * string)) : H string :=
  match str_format E template kwargs with
  | Some s => mret s
  | None => fail FormatError
  end.

(** [callback.from_user.id not in config.SUDO_ADMINS] *)
Definition not_sudo (callback : Callback) : bool :=
  negb (bool_decide (from_user_id callback ∈ SUDO_ADMINS E)).

(** The keyboard with the single button "back". *)
Definition back_keyboard : H (list (list Button)) :=
  back ← config_BUTTONS "back";
  mret [[mkButton back "sudo_menu"]].

Definition create_backup (callback : Callback) : H unit :=
  if not_sudo callback
  then callback_answer (Some unauthorized_text) (Some true)
  else
    r ← backup_manager_create_backup;
    let '(success, message) := r in
    text ←
      (if success : bool
       then template ← config_MESSAGES "backup_success";
            format template [("filename", message)]
       else template ← config_MESSAGES "backup_error";
            format template [("error", message)]);
    keyboard ← back_keyboard;
    message_edit_text text keyboard;;
    callback_answer None None.

Definition list_backups (callback : Callback) : H unit :=
  if not_sudo callback
  then callback_answer (Some unauthorized_text) (Some true)
  else
    backups ← backup_manager_list_backups;
    match backups with
    | [] =>
      keyboard ← back_keyboard;
      message_edit_text no_backup_text keyboard
    | _ :: _ =>
      let buttons :=
        List.map (fun b => [mkButton b ("restore_" +:+ b)]) backups in
      back ← config_BUTTONS "back";
      let buttons := buttons ++ [[mkButton back "sudo_menu"]] in
      message_edit_text choose_backup_text buttons;;
      callback_answer None None
    end.

Definition restore_backup (callback : Callback) : H unit :=
  if not_sudo callback
  then callback_answer (Some unauthorized_text) (Some true)
  else
    backup_filename ←
      match split_once underscore (data callback) with
      | _ :: backup_filename :: _ => mret backup_filename
      | _ => fail IndexError
      end;
    r ← backup_manager_restore_backup backup_filename;
    let '(success, message) := r in
    text ←
      (if success : bool
       then config_MESSAGES "restore_success"
       else template ← config_MESSAGES "restore_error";
            format template [("error", message)]);
    keyboard ← back_keyboard;
    message_edit_text text keyboard;;
    callback_answer None None.

End WithEnv.

End BackupHandlers.

(** A sample backup menu: two sudo admins, two backups on disk. *)
Definition sample_handler_env : BackupHandlers.Env :=
  BackupHandlers.mkEnv [101%Z; 202%Z]
    (<["backup_success" := "Backup created: {filename}"]>
     (<["backup_error" := "Backup failed: {error}"]>
     (<["restore_success" := "Restored."]>
     (<["restore_error" := "Restore failed: {error}"]> ∅))))
    (<["back" := "Back"]> ∅)
    (true, "marzban_backup_20260101_000000.tar.gz")
    (Some ["marzban_backup_20260101_000000.tar.gz";
           "marzban_backup_20260102_000000.tar.gz"])
    (fun _ => (true, "ok"))
    sample_format
    (fun _ => false).

(** * Properties *)

(** ** Basic facts about the coroutine combinators *)


Lemma bind_ret {A B : Type} (m : M A) (f : A -> M B) (w w' : World) (a : A) :
  m w = (Ret a, w') -> (m ≫= f) w = f a w'.
Proof. intros H. unfold mbind, M_bind. rewrite H. reflexivity. Qed.

(** A [try] whose handler only prints never lets an exception out. *)
Lemma try_except_print (body : M unit) (line : exn -> string) (w : World) :
  exists w', try_except body (fun e => print (line e)) w = (Ret tt, w').
Proof.
  unfold try_except. destruct (body w) as [[[]|e] w1]; eauto.
Qed.

Section CheckSuccess.
Context (E : Env) (w : World) (admin_id : Z) (admin : Admin.t)
        (admin_stats : AdminStats.t).

Hypothesis Hlookup_ok : get_admin_by_id_raises E (Some admin_id) = false.
Hypothesis Hfound :
  List.find (fun a => Z.eqb (Admin.id a) admin_id) (db_admins w) = Some admin.
Hypothesis Hactive : Admin.is_active admin = true.
Hypothesis Hstats : get_admin_stats E (admin_username_of admin) = Some admin_stats.
Hypothesis Hstore_ok :
  add_usage_report_raises E (report_at E w admin admin_stats) = false.

Lemma check_admin_limits_by_id_success :
  check_admin_limits_by_id E admin_id w
  = (Ret (result_at E w admin admin_stats), world_after_check E w admin admin_stats).
Proof.
  unfold check_admin_limits_by_id, try_assign_except, db_get_admin_by_id.
  rewrite Hlookup_ok, Hfound, Hactive. cbn [negb].
  unfold try_except, mbind, M_bind, marzban_api_get_admin_stats.
  rewrite Hstats. cbn [datetime_utcnow set_panel_calls set_ticks ticks].
  unfold db_add_usage_report.
  change (utcnow E (ticks w) - Admin.created_at admin)%Q with (elapsed_at E w admin).
  fold (time_percentage_at E w admin).
  fold (user_percentage_at admin admin_stats).
  fold (traffic_percentage_at admin admin_stats).
  fold (report_at E w admin admin_stats).
  rewrite Hstore_ok. reflexivity.
Qed.

End CheckSuccess.

(** ** Frame rules *)

Lemma keeps_ret {A T : Type} (f : World -> T) (a : A) : keeps f (mret a).
Proof. intros w. reflexivity. Qed.

Lemma keeps_raise {A T : Type} (f : World -> T) (e : exn) : keeps f (@raise A e).
Proof. intros w. reflexivity. Qed.

Lemma keeps_bind {A B T : Type} (f : World -> T) (m : M A) (k : A -> M B) :
  keeps f m -> (forall a, keeps f (k a)) -> keeps f (m ≫= k).
Proof.
  intros Hm Hk w. unfold mbind, M_bind.
  specialize (Hm w). destruct (m w) as [[a|e] w1]; simpl in *.
  - rewrite Hk. exact Hm.
  - exact Hm.
Qed.

Lemma keeps_try_except {A T : Type} (f : World -> T) (body : M A) (h : exn -> M A) :
  keeps f body -> (forall e, keeps f (h e)) -> keeps f (try_except body h).
Proof.
  intros Hm Hh w. unfold try_except.
  specialize (Hm w). destruct (body w) as [[a|e] w1]; simpl in *.
  - exact Hm.
  - rewrite Hh. exact Hm.
Qed.

Lemma keeps_try_assign_except {A B T : Type} (f : World -> T) (first : M A)
    (rest : A -> M B) (h : local A -> exn -> M B) :
  keeps f first -> (forall a, keeps f (rest a)) -> (forall x e, keeps f (h x e)) ->
  keeps f (try_assign_except first rest h).
Proof.
  intros Hm Hr Hh w. unfold try_assign_except.
  specialize (Hm w). destruct (first w) as [[a|e] w1]; simpl in *.
  - rewrite (keeps_try_except f (rest a) (h (Bound a)) (Hr a) (Hh (Bound a))).
    exact Hm.
  - rewrite Hh. exact Hm.
Qed.

Lemma keeps_for_each {A T : Type} (f : World -> T) (xs : list A) (body : A -> M unit) :
  (forall x, keeps f (body x)) -> keeps f (for_each xs body).
Proof.
  intros Hb. induction xs as [|x xs IH]; simpl.
  - apply keeps_ret.
  - apply keeps_bind; auto.
Qed.

Lemma keeps_for_fold {A S T : Type} (f : World -> T) (xs : list A)
    (body : S -> A -> M S) (s : S) :
  (forall s x, keeps f (body s x)) -> keeps f (for_fold xs body s).
Proof.
  intros Hb. revert s. induction xs as [|x xs IH]; intros s; simpl.
  - apply keeps_ret.
  - apply keeps_bind; auto.
Qed.

(** A leaf: a primitive effect that does not write the component. *)
Ltac keeps_leaf :=
  let w := fresh "w" in
  intros w;
  cbv [print asyncio_sleep datetime_utcnow datetime_now db_get_admin
       db_get_admin_by_id db_get_all_admins db_add_usage_report db_add_log
       marzban_api_get_admin_stats marzban_api_get_users marzban_api_remove_user
       bot_send_message backup_manager_create_backup config_MESSAGES format
       limits_data_get read_local scheduler_add_job scheduler_start
       scheduler_shutdown CronTrigger_from_crontab raise mret M_ret];
  repeat case_match; reflexivity.

Ltac keeps_step :=
  first
    [ apply keeps_bind
    | apply keeps_try_except
    | apply keeps_try_assign_except
    | apply keeps_for_each
    | apply keeps_for_fold
    | apply keeps_ret
    | apply keeps_raise
    | solve [auto]
    | match goal with
      | |- keeps _ (if ?b then _ else _) => destruct b
      | |- keeps _ (match ?x with _ => _ end) => destruct x
      | |- keeps _ (let '(_, _) := ?x in _) => destruct x
      end
    | match goal with |- forall _, _ => intro end
    | match goal with |- keeps _ _ => solve [keeps_leaf] end ].

Ltac keeps_tac := repeat keeps_step.

Section Frames.
Context (E : Env).

Lemma handle_limit_warning_keeps_reports result :
  keeps db_usage_reports (handle_limit_warning E result).
Proof. unfold handle_limit_warning. keeps_tac. Qed.

Lemma handle_limit_exceeded_keeps_reports result :
  keeps db_usage_reports (handle_limit_exceeded E result).
Proof. unfold handle_limit_exceeded. keeps_tac. Qed.

Lemma handle_limit_warning_keeps_admins result :
  keeps db_admins (handle_limit_warning E result).
Proof. unfold handle_limit_warning. keeps_tac. Qed.

Lemma handle_limit_exceeded_keeps_admins result :
  keeps db_admins (handle_limit_exceeded E result).
Proof. unfold handle_limit_exceeded. keeps_tac. Qed.

Lemma cleanup_expired_users_keeps_reports :
  keeps db_usage_reports (cleanup_expired_users E).
Proof. unfold cleanup_expired_users. keeps_tac. Qed.

Lemma cleanup_expired_users_keeps_admins :
  keeps db_admins (cleanup_expired_users E).
Proof. unfold cleanup_expired_users. keeps_tac. Qed.

End Frames.

(** ** The limit evaluator inside [check_admin_limits_by_id] *)


Lemma limits_data_of_lookup admin admin_stats elapsed tp up trp :
  limits_data_of admin admin_stats elapsed tp up trp !! "time_percentage" = Some tp
  /\ limits_data_of admin admin_stats elapsed tp up trp !! "user_percentage" = Some up
  /\ limits_data_of admin admin_stats elapsed tp up trp !! "traffic_percentage" = Some trp
  /\ limits_data_of admin admin_stats elapsed tp up trp !! "current_traffic" = Some 0%Q
  /\ limits_data_of admin admin_stats elapsed tp up trp !! "current_users"
     = Some (inject_Z (AdminStats.total_users admin_stats))
  /\ limits_data_of admin admin_stats elapsed tp up trp !! "current_time" = Some elapsed.
Proof. unfold limits_data_of. repeat split; by simplify_map_eq. Qed.






Example dave_has_no_ceiling :
  exists w',
    check_admin_limits_by_id sample_env 4 sample_world
    = (Ret (LimitCheckResult.mk 104 (Some 4%Z) false false
              (limits_data_of dave (AdminStats.mk 10 500) 700 0 0 0)), w').
Proof. eexists. reflexivity. Qed.

(** The two evaluator scenarios of the specification. *)
Example erin_user_ceiling_reached :
  exists result w',
    check_admin_limits_by_id sample_env 5 (init_scheduler [erin; frank])
    = (Ret result, w')
    /\ LimitCheckResult.exceeded result = true
    /\ LimitCheckResult.limits_data result !! "traffic_percentage" = Some 0%Q.
Proof. eexists _, _. repeat split. Qed.

Example frank_seven_tenths_of_his_time :
  exists result w' time_percentage,
    check_admin_limits_by_id sample_env 6 (init_scheduler [erin; frank])
    = (Ret result, w')
    /\ LimitCheckResult.limits_data result !! "time_percentage" = Some time_percentage
    /\ (time_percentage == 7 # 10)%Q
    /\ LimitCheckResult.warning result = true
    /\ LimitCheckResult.exceeded result = false.
Proof. eexists _, _, _. repeat split. Qed.

Example alice_is_exceeded_and_warned :
  exists result w',
    check_admin_limits_by_id sample_env 1 sample_world = (Ret result, w')
    /\ LimitCheckResult.exceeded result = true
    /\ LimitCheckResult.warning result = true.
Proof. eexists _, _. split; [reflexivity|]. split; reflexivity. Qed.

(** ** Notification dispatch *)

(** [handle_limit_exceeded] never raises, and sends the exceeded text to
    the admin when the text exists and the delivery goes through. *)
Lemma handle_limit_exceeded_sends (E : Env) (result : LimitCheckResult.t)
    (w : World) (i : Z) (admin : Admin.t) :
  LimitCheckResult.admin_id result = Some i ->
  get_admin_by_id_raises E (Some i) = false ->
  List.find (fun a => Z.eqb (Admin.id a) i) (db_admins w) = Some admin ->
  exists w',
    handle_limit_exceeded E result w = (Ret tt, w')
    /\ sent_messages w' = sent_messages w ++ exceeded_notification E admin.
Proof.
  intros Hid Hok Hfound.
  unfold handle_limit_exceeded, try_except, mbind, M_bind, db_get_admin_by_id.
  rewrite Hid, Hok, Hfound.
  unfold exceeded_notification, config_MESSAGES, bot_send_message.
  destruct (Config.MESSAGES (config E) !! "limit_exceeded") as [text|]; cbn.
  - destruct (send_message_raises E (ChatInt (Admin.user_id admin)) text); cbn;
      eexists; (split; [reflexivity|]); cbn; by rewrite ?app_nil_r.
  - eexists; (split; [reflexivity|]); cbn; by rewrite app_nil_r.
Qed.



Example alice_gets_only_the_exceeded_notification :
  sent_messages (monitor_admin sample_env alice sample_world).2
  = [(ChatInt 101, "Your panel has reached its limit.")].
Proof. reflexivity. Qed.

(** ** Neutral results and failures of [check_admin_limits_by_id] *)

(** The guard [if not admin or not admin.is_active] returns before any
    effect. *)
Lemma check_admin_limits_by_id_neutral (E : Env) (w : World) (admin_id : Z) :
  get_admin_by_id_raises E (Some admin_id) = false ->
  (forall a,
     List.find (fun a => Z.eqb (Admin.id a) admin_id) (db_admins w) = Some a ->
     Admin.is_active a = false) ->
  exists uid,
    check_admin_limits_by_id E admin_id w = (Ret (LimitCheckResult.neutral uid), w).
Proof.
  intros Hok Hinactive.
  unfold check_admin_limits_by_id, try_assign_except, db_get_admin_by_id.
  rewrite Hok.
  destruct (List.find _ (db_admins w)) as [a|] eqn:Hfind.
  - rewrite (Hinactive a eq_refl). cbn. by eexists.
  - cbn. by eexists.
Qed.

(** C5: when the store answers and the admin is missing or inactive,
    [check_admin_limits_by_id] returns a neutral result and leaves the
    world exactly as it was: no panel call, no usage report, and no line
    on the error path. *)
Theorem check_admin_limits_by_id_missing_or_inactive
    (E : Env) (w : World) (admin_id : Z) :
  get_admin_by_id_raises E (Some admin_id) = false ->
  (forall a,
     List.find (fun a => Z.eqb (Admin.id a) admin_id) (db_admins w) = Some a ->
     Admin.is_active a = false) ->
  exists (result : LimitCheckResult.t) (w' : World),
    check_admin_limits_by_id E admin_id w = (Ret result, w')
    /\ LimitCheckResult.exceeded result = false
    /\ LimitCheckResult.warning result = false
    /\ panel_calls w' = panel_calls w
    /\ db_usage_reports w' = db_usage_reports w
    /\ stdout w' = stdout w
    /\ w' = w.
Proof.
  intros Hok Hinactive.
  destruct (check_admin_limits_by_id_neutral E w admin_id Hok Hinactive) as [uid H].
  exists (LimitCheckResult.neutral uid), w. rewrite H. repeat split.
Qed.

Lemma check_admin_limits_by_id_missing_or_inactive_witness :
  exists (result : LimitCheckResult.t) (w' : World),
    check_admin_limits_by_id sample_env (Admin.id carol) sample_world = (Ret result, w')
    /\ LimitCheckResult.exceeded result = false
    /\ LimitCheckResult.warning result = false
    /\ panel_calls w' = panel_calls sample_world
    /\ db_usage_reports w' = db_usage_reports sample_world
    /\ stdout w' = stdout sample_world
    /\ w' = sample_world.
Proof.
  apply (check_admin_limits_by_id_missing_or_inactive
           sample_env sample_world (Admin.id carol)).
  - reflexivity.
  - cbn. intros a [= <-]. reflexivity.
Defined.

Example unknown_admin_is_neutral :
  check_admin_limits_by_id sample_env 99 sample_world
  = (Ret (LimitCheckResult.neutral 0), sample_world).
Proof. reflexivity. Qed.

(** A panel failure is absorbed: one error line, a neutral result, no
    report. *)
Lemma check_admin_limits_by_id_panel_raises
    (E : Env) (w : World) (admin_id : Z) (admin : Admin.t) :
  get_admin_by_id_raises E (Some admin_id) = false ->
  List.find (fun a => Z.eqb (Admin.id a) admin_id) (db_admins w) = Some admin ->
  Admin.is_active admin = true ->
  get_admin_stats E (admin_username_of admin) = None ->
  exists w',
    check_admin_limits_by_id E admin_id w
    = (Ret (LimitCheckResult.neutral (Admin.user_id admin)), w')
    /\ db_usage_reports w' = db_usage_reports w
    /\ db_admins w' = db_admins w.
Proof.
  intros Hok Hfound Hactive Hstats.
  unfold check_admin_limits_by_id, try_assign_except, db_get_admin_by_id.
  rewrite Hok, Hfound, Hactive. cbn [negb].
  unfold try_except, mbind, M_bind, marzban_api_get_admin_stats.
  rewrite Hstats. cbn. eexists. repeat split.
Qed.

(** A failure of [add_usage_report] is absorbed in the same way. *)
Lemma check_admin_limits_by_id_report_raises
    (E : Env) (w : World) (admin_id : Z) (admin : Admin.t)
    (admin_stats : AdminStats.t) :
  get_admin_by_id_raises E (Some admin_id) = false ->
  List.find (fun a => Z.eqb (Admin.id a) admin_id) (db_admins w) = Some admin ->
  Admin.is_active admin = true ->
  get_admin_stats E (admin_username_of admin) = Some admin_stats ->
  add_usage_report_raises E (report_at E w admin admin_stats) = true ->
  exists w',
    check_admin_limits_by_id E admin_id w
    = (Ret (LimitCheckResult.neutral (Admin.user_id admin)), w')
    /\ db_usage_reports w' = db_usage_reports w.
Proof.
  intros Hok Hfound Hactive Hstats Hraises.
  unfold check_admin_limits_by_id, try_assign_except, db_get_admin_by_id.
  rewrite Hok, Hfound, Hactive. cbn [negb].
  unfold try_except, mbind, M_bind, marzban_api_get_admin_stats.
  rewrite Hstats. cbn [datetime_utcnow set_panel_calls set_ticks ticks].
  unfold db_add_usage_report.
  change (utcnow E (ticks w) - Admin.created_at admin)%Q with (elapsed_at E w admin).
  fold (report_at E w admin admin_stats).
  rewrite Hraises. cbn. eexists. repeat split.
Qed.

(** When the lookup [get_admin_by_id] itself raises, the handler reads
    the local [admin] before it was ever bound: the call raises
    [UnboundLocalError] instead of returning. *)
Lemma check_admin_limits_by_id_lookup_raises (E : Env) (w : World) (admin_id : Z) :
  get_admin_by_id_raises E (Some admin_id) = true ->
  check_admin_limits_by_id E admin_id w
  = (Raise (UnboundLocalError "admin"),
     set_stdout (fun l => l ++ ["Error checking admin limits: db.get_admin_by_id"]) w).
Proof.
  intros Hraises.
  unfold check_admin_limits_by_id, try_assign_except, db_get_admin_by_id.
  rewrite Hraises. reflexivity.
Qed.

(** C4 (fails on the code): with a store whose [get_admin_by_id] raises,
    [check_admin_limits_by_id] does not return a neutral result; it
    raises [UnboundLocalError] out of its own [except] clause. *)
Theorem check_admin_limits_by_id_raises_on_store_lookup_failure :
  check_admin_limits_by_id broken_store_env 1 sample_world
  = (Raise (UnboundLocalError "admin"),
     set_stdout (fun l => l ++ ["Error checking admin limits: db.get_admin_by_id"])
       sample_world).
Proof. reflexivity. Qed.

(** Inside a cycle the loop body catches that exception, prints it and
    goes on with the next admin. *)
Example broken_store_cycle_goes_on :
  (monitor_all_admins broken_store_env sample_world).1 = Ret tt
  /\ db_usage_reports (monitor_all_admins broken_store_env sample_world).2 = []
  /\ List.filter
       (fun line => String.prefix "Error monitoring admin panel " line)
       (stdout (monitor_all_admins broken_store_env sample_world).2)
     = ["Error monitoring admin panel 1 (user 101): "
          +:+ str_exn (UnboundLocalError "admin");
        "Error monitoring admin panel 2 (user 102): "
          +:+ str_exn (UnboundLocalError "admin");
        "Error monitoring admin panel 3 (user 103): "
          +:+ str_exn (UnboundLocalError "admin");
        "Error monitoring admin panel 4 (user 104): "
          +:+ str_exn (UnboundLocalError "admin")].
Proof. repeat split; vm_compute; reflexivity. Qed.

(** C8 (fails on the code): for [alice], whose panel statistics report
    500 bytes of traffic, the evaluation succeeds with
    [traffic_percentage = 500 / 1000], yet the [current_traffic] entry of
    [limits_data] is the constant [0], while [current_users] does carry
    the observed user count. *)
Theorem limits_data_current_traffic_is_zero :
  exists result w',
    check_admin_limits_by_id sample_env 1 sample_world = (Ret result, w')
    /\ get_admin_stats sample_env (admin_username_of alice)
       = Some (AdminStats.mk 10 500)
    /\ LimitCheckResult.limits_data result !! "traffic_percentage"
       = Some (inject_Z 500 / inject_Z 1000)%Q
    /\ LimitCheckResult.limits_data result !! "current_traffic" = Some 0%Q
    /\ LimitCheckResult.limits_data result !! "current_users" = Some (inject_Z 10).
Proof. eexists _, _. repeat split. Qed.

(** ** The reaper *)

Example cleanup_expired_users_panel_calls :
  panel_calls (cleanup_expired_users sample_env sample_world).2
  = [CallGetUsers "alice"; CallRemoveUser "u1"; CallRemoveUser "u2";
     CallGetUsers "bob_panel"; CallRemoveUser "u1"; CallRemoveUser "u2";
     CallGetUsers "104"; CallRemoveUser "u1"; CallRemoveUser "u2"].
Proof. reflexivity. Qed.

(** C6 (fails on the code): the panel lists [u1] for the active admin
    [alice] with [is_expired = false], and [cleanup_expired_users] calls
    [remove_user] on [u1] all the same; the log entry then counts it among
    the "expired users". *)
Theorem cleanup_expired_users_removes_unexpired_user :
  Admin.is_active alice = true
  /\ get_users sample_env (admin_username_of alice) = Some sample_users
  /\ In (PanelUser.mk "u1" false) sample_users
  /\ In (CallRemoveUser "u1")
       (panel_calls (cleanup_expired_users sample_env sample_world).2)
  /\ List.map LogModel.details (db_logs (cleanup_expired_users sample_env sample_world).2)
     = ["Automatically cleaned up 6 expired users"].
Proof.
  repeat split.
  - left. reflexivity.
  - vm_compute. right. left. reflexivity.
Qed.

(** ** The backup job *)




(** ** One monitoring cycle *)

Lemma keeps_run {A T : Type} (f : World -> T) (m : M A) (w w' : World) (r : outcome A) :
  keeps f m -> m w = (r, w') -> f w' = f w.
Proof. intros Hk Hm. specialize (Hk w). by rewrite Hm in Hk. Qed.

(** Neither handler raises, and neither touches the store. *)
Lemma dispatch_then_sleep (E : Env) (result : LimitCheckResult.t) (w : World) :
  exists w',
    ((if LimitCheckResult.exceeded result then handle_limit_exceeded E result
      else if LimitCheckResult.warning result then handle_limit_warning E result
      else mret tt);; asyncio_sleep 1) w = (Ret tt, w')
    /\ db_admins w' = db_admins w
    /\ db_usage_reports w' = db_usage_reports w.
Proof.
  destruct (LimitCheckResult.exceeded result);
    [|destruct (LimitCheckResult.warning result)].
  - destruct (try_except_print
                (admin ← db_get_admin_by_id E (LimitCheckResult.admin_id result);
                 match admin with
                 | None => mret tt
                 | Some admin =>
                   text ← config_MESSAGES E "limit_exceeded";
                   bot_send_message E (ChatInt (Admin.user_id admin)) text
                 end)
                (fun e => "Error sending limit exceeded message: " +:+ str_exn e) w)
      as [w1 H1].
    change (handle_limit_exceeded E result w = (Ret tt, w1)) in H1.
    rewrite (bind_ret _ _ _ _ _ H1). eexists. split; [reflexivity|].
    cbn. split.
    + exact (keeps_run _ _ _ _ _ (handle_limit_exceeded_keeps_admins E result) H1).
    + exact (keeps_run _ _ _ _ _ (handle_limit_exceeded_keeps_reports E result) H1).
  - assert (exists w1, handle_limit_warning E result w = (Ret tt, w1)) as [w1 H1]
      by apply try_except_print.
    rewrite (bind_ret _ _ _ _ _ H1). eexists. split; [reflexivity|].
    cbn. split.
    + exact (keeps_run _ _ _ _ _ (handle_limit_warning_keeps_admins E result) H1).
    + exact (keeps_run _ _ _ _ _ (handle_limit_warning_keeps_reports E result) H1).
  - eexists. split; [reflexivity|]. split; reflexivity.
Qed.

(** The reports that one pass of the loop body adds for [a]. *)
Lemma monitor_admin_reports (E : Env) (a : Admin.t) (w : World) :
  store_answers E ->
  List.find (fun x => Z.eqb (Admin.id x) (Admin.id a)) (db_admins w) = Some a ->
  exists w' new,
    monitor_admin E a w = (Ret tt, w')
    /\ db_admins w' = db_admins w
    /\ db_usage_reports w' = db_usage_reports w ++ new
    /\ List.map UsageReportModel.admin_user_id new
       = if reported E a then [Admin.user_id a] else [].
Proof.
  intros (Hall & Hby_id & Hadd) Hfound.
  unfold monitor_admin, try_except, reported.
  destruct (Admin.is_active a) eqn:Hactive.
  - destruct (get_admin_stats E (admin_username_of a)) as [s|] eqn:Hstats.
    + rewrite (bind_ret _ _ _ _ _
                 (check_admin_limits_by_id_success E w (Admin.id a) a s
                    (Hby_id _) Hfound Hactive Hstats (Hadd _))).
      destruct (dispatch_then_sleep E (result_at E w a s) (world_after_check E w a s))
        as (w' & Hrun & Hadmins & Hreports).
      rewrite Hrun. exists w', [report_at E w a s].
      split; [reflexivity|]. split; [by rewrite Hadmins|].
      split; [by rewrite Hreports|reflexivity].
    + destruct (check_admin_limits_by_id_panel_raises E w (Admin.id a) a
                  (Hby_id _) Hfound Hactive Hstats) as (w1 & Hcheck & Hreports & Hadmins).
      rewrite (bind_ret _ _ _ _ _ Hcheck). cbn.
      exists (set_sleeps (fun l => l ++ [1%Q]) w1), [].
      split; [reflexivity|]. cbn. rewrite app_nil_r. by repeat split.
  - destruct (check_admin_limits_by_id_neutral E w (Admin.id a) (Hby_id _)) as [uid Hcheck].
    { intros a' Ha'. rewrite Hfound in Ha'. by injection Ha' as <-. }
    rewrite (bind_ret _ _ _ _ _ Hcheck). cbn.
    exists (set_sleeps (fun l => l ++ [1%Q]) w), [].
    split; [reflexivity|]. cbn. rewrite app_nil_r. by repeat split.
Qed.

Lemma find_by_id_NoDup (l : list Admin.t) (a : Admin.t) :
  NoDup (List.map Admin.id l) -> In a l ->
  List.find (fun x => Z.eqb (Admin.id x) (Admin.id a)) l = Some a.
Proof.
  induction l as [|x l IH]; intros Hnd Hin; [destruct Hin|].
  cbn in Hnd. apply NoDup_cons in Hnd as [Hx Hnd].
  cbn. destruct (Z.eqb_spec (Admin.id x) (Admin.id a)) as [Heq|Hne].
  - destruct Hin as [->|Hin]; [reflexivity|].
    exfalso. apply Hx. rewrite Heq. apply list_elem_of_In. by apply in_map.
  - destruct Hin as [->|Hin]; [done|]. by apply IH.
Qed.

(** The loop over the admins: it runs to the end, whatever happens to
    each admin. *)
Lemma monitor_loop_reports (E : Env) (l : list Admin.t) (w : World) :
  store_answers E ->
  NoDup (List.map Admin.id (db_admins w)) ->
  (forall a, In a l -> In a (db_admins w)) ->
  exists w' new,
    for_each l (monitor_admin E) w = (Ret tt, w')
    /\ db_admins w' = db_admins w
    /\ db_usage_reports w' = db_usage_reports w ++ new
    /\ List.map UsageReportModel.admin_user_id new
       = List.map Admin.user_id (List.filter (reported E) l).
Proof.
  intros Hstore. revert w.
  induction l as [|a l IH]; intros w Hnd Hin.
  - exists w, []. cbn. rewrite app_nil_r. by repeat split.
  - destruct (monitor_admin_reports E a w Hstore) as (w1 & new1 & Hrun & Hadmins & Hrep & Hmap).
    { apply find_by_id_NoDup; [exact Hnd|]. apply Hin. by left. }
    destruct (IH w1) as (w2 & new2 & Hrun2 & Hadmins2 & Hrep2 & Hmap2).
    { by rewrite Hadmins. }
    { intros a' Ha'. rewrite Hadmins. apply Hin. by right. }
    exists w2, (new1 ++ new2).
    cbn [for_each]. rewrite (bind_ret _ _ _ _ _ Hrun).
    split; [exact Hrun2|]. split; [congruence|].
    split; [by rewrite Hrep2, Hrep, app_assoc|].
    rewrite map_app, Hmap, Hmap2. cbn [List.filter].
    by destruct (reported E a).
Qed.

Lemma cleanup_expired_users_returns (E : Env) (w : World) :
  exists w',
    cleanup_expired_users E w = (Ret tt, w')
    /\ db_admins w' = db_admins w
    /\ db_usage_reports w' = db_usage_reports w.
Proof.
  assert (exists w', cleanup_expired_users E w = (Ret tt, w')) as [w' H]
    by apply try_except_print.
  exists w'. split; [exact H|]. split.
  - exact (keeps_run _ _ _ _ _ (cleanup_expired_users_keeps_admins E) H).
  - exact (keeps_run _ _ _ _ _ (cleanup_expired_users_keeps_reports E) H).
Qed.

(** One cycle stores exactly one report for every active admin whose
    panel statistics can be fetched, in enumeration order, and returns
    normally. *)
Lemma monitor_all_admins_reports (E : Env) (w : World) :
  store_answers E ->
  NoDup (List.map Admin.id (db_admins w)) ->
  exists w' new,
    monitor_all_admins E w = (Ret tt, w')
    /\ db_usage_reports w' = db_usage_reports w ++ new
    /\ List.map UsageReportModel.admin_user_id new
       = List.map Admin.user_id (List.filter (reported E) (db_admins w)).
Proof.
  intros Hstore Hnd.
  pose proof Hstore as (Hall & _ & _).
  unfold monitor_all_admins, try_except.
  rewrite (bind_ret (datetime_now E) _ w (set_ticks S w) (now E (ticks w)) eq_refl).
  rewrite (bind_ret (print _) _ _ _ tt eq_refl).
  match goal with |- context [ _ (set_stdout ?f (set_ticks S w)) ] =>
    set (w1 := set_stdout f (set_ticks S w)) end.
  assert (exists w2,
            (if Config.AUTO_DELETE_EXPIRED_USERS (config E)
             then cleanup_expired_users E else mret tt) w1 = (Ret tt, w2)
            /\ db_admins w2 = db_admins w
            /\ db_usage_reports w2 = db_usage_reports w) as (w2 & Hc & Hadmins & Hreports).
  { destruct (Config.AUTO_DELETE_EXPIRED_USERS (config E)).
    - destruct (cleanup_expired_users_returns E w1) as (w2 & H & Ha & Hr).
      exists w2. by repeat split.
    - exists w1. by repeat split. }
  rewrite (bind_ret _ _ _ _ _ Hc).
  unfold db_get_all_admins at 1. unfold mbind at 1, M_bind at 1. rewrite Hall, Hadmins.
  destruct (List.filter Admin.is_active (db_admins w)) as [|a0 rest] eqn:Hactive.
  - eexists _, []. split; [reflexivity|]. cbn. rewrite app_nil_r, Hreports.
    split; [reflexivity|].
    assert (List.filter (reported E) (db_admins w) = []) as ->; [|reflexivity].
    clear -Hactive. induction (db_admins w) as [|a l IH]; [reflexivity|].
    cbn in *. unfold reported at 1.
    destruct (Admin.is_active a); [discriminate|]. cbn. by apply IH.
  - rewrite (bind_ret (print _) _ _ _ tt eq_refl).
    match goal with |- context [ _ (set_stdout ?f w2) ] =>
      set (w3 := set_stdout f w2) end.
    destruct (monitor_loop_reports E (db_admins w) w3 Hstore)
      as (w4 & new & Hloop & Hadmins4 & Hreports4 & Hmap).
    { subst w3. cbn. by rewrite Hadmins. }
    { subst w3. cbn. rewrite Hadmins. auto. }
    rewrite (bind_ret _ _ _ _ _ Hloop).
    eexists _, new. split; [reflexivity|]. cbn.
    split; [|exact Hmap].
    rewrite Hreports4. subst w3. cbn. by rewrite Hreports.
Qed.

Lemma filter_reported_all_but_one (E : Env) (a0 : Admin.t) (l : list Admin.t) :
  get_admin_stats E (admin_username_of a0) = None ->
  (forall a, In a l -> Admin.is_active a = true -> a <> a0 ->
             get_admin_stats E (admin_username_of a) <> None) ->
  (forall a, In a l -> Admin.id a = Admin.id a0 -> a = a0) ->
  NoDup (List.map Admin.id l) ->
  List.filter (reported E) l
  = List.filter (fun a => Admin.is_active a && negb (Z.eqb (Admin.id a) (Admin.id a0))) l
  /\ (In a0 l -> Admin.is_active a0 = true ->
      S (length (List.filter (reported E) l)) = length (List.filter Admin.is_active l))
  /\ (~ In a0 l ->
      length (List.filter (reported E) l) = length (List.filter Admin.is_active l)).
Proof.
  intros Hfail. induction l as [|a l IH]; intros Hothers Huniq Hnd.
  - cbn. split; [reflexivity|]. split; [intros []|intros; reflexivity].
  - cbn [List.map] in Hnd. apply NoDup_cons in Hnd as [Ha Hnd].
    rewrite list_elem_of_In in Ha.
    destruct IH as (IH1 & IH2 & IH3);
      [intros; apply Hothers; auto; by right
      |intros; apply Huniq; auto; by right
      |exact Hnd|].
    assert (Hrep : reported E a
                   = Admin.is_active a
                     && match get_admin_stats E (admin_username_of a) with
                        | Some _ => true
                        | None => false
                        end) by reflexivity.
    cbn [List.filter]. rewrite !Hrep. clear Hrep.
    destruct (Admin.is_active a) eqn:Hactive; cbn [andb].
    + destruct (Z.eqb_spec (Admin.id a) (Admin.id a0)) as [Heq|Hne]; cbn [negb].
      * assert (a = a0) as -> by (apply Huniq; [by left|exact Heq]).
        assert (Hnot : ~ In a0 l).
        { intros Hin. apply Ha. by apply in_map. }
        rewrite Hfail.
        split; [exact IH1|]. split.
        -- intros _ _. cbn [length]. by rewrite IH3.
        -- intros Hn. exfalso. apply Hn. by left.
      * assert (a <> a0) by (intros ->; done).
        destruct (get_admin_stats E (admin_username_of a)) as [s|] eqn:Hs.
        -- split; [by rewrite IH1|]. split.
           ++ intros [->|Hin] Ha0; [done|]. cbn [length]. by rewrite IH2.
           ++ intros Hn. cbn [length]. rewrite IH3; [done|].
              intros Hin. apply Hn. by right.
        -- exfalso. apply (Hothers a); [by left|exact Hactive|assumption|exact Hs].
    + split; [exact IH1|]. split.
      * intros [->|Hin] Ha0; [congruence|]. by apply IH2.
      * intros Hn. apply IH3. intros Hin. apply Hn. by right.
Qed.

(** C3: in a store whose calls succeed and whose admins have distinct
    identifiers, let the panel's [get_admin_stats] raise for the active
    admin [a0] and succeed for every other active admin.  Then one
    [monitor_all_admins] returns normally (no exception escapes) and
    appends exactly one usage report for each active admin other than
    [a0], in enumeration order, and none for [a0]: [N - 1] reports for [N]
    active admins. *)
Theorem monitor_all_admins_isolates_panel_failure
    (E : Env) (w : World) (a0 : Admin.t) :
  store_answers E ->
  NoDup (List.map Admin.id (db_admins w)) ->
  In a0 (db_admins w) ->
  Admin.is_active a0 = true ->
  get_admin_stats E (admin_username_of a0) = None ->
  (forall a, In a (db_admins w) -> Admin.is_active a = true -> a <> a0 ->
             get_admin_stats E (admin_username_of a) <> None) ->
  exists w' new,
    monitor_all_admins E w = (Ret tt, w')
    /\ db_usage_reports w' = db_usage_reports w ++ new
    /\ List.map UsageReportModel.admin_user_id new
       = List.map Admin.user_id
           (List.filter
              (fun a => Admin.is_active a && negb (Z.eqb (Admin.id a) (Admin.id a0)))
              (db_admins w))
    /\ length new = (length (List.filter Admin.is_active (db_admins w)) - 1)%nat.
Proof.
  intros Hstore Hnd Hin Hactive Hfail Hothers.
  destruct (monitor_all_admins_reports E w Hstore Hnd) as (w' & new & Hrun & Hrep & Hmap).
  destruct (filter_reported_all_but_one E a0 (db_admins w) Hfail Hothers)
    as (Hfilter & Hlen & _); [|exact Hnd|].
  { intros a Ha Hid.
    pose proof (find_by_id_NoDup _ a Hnd Ha) as H1.
    pose proof (find_by_id_NoDup _ a0 Hnd Hin) as H2.
    rewrite Hid in H1. congruence. }
  exists w', new. split; [exact Hrun|]. split; [exact Hrep|]. split.
  - by rewrite Hmap, Hfilter.
  - specialize (Hlen Hin Hactive).
    assert (length new = length (List.filter (reported E) (db_admins w))) as ->.
    { rewrite <- (length_map UsageReportModel.admin_user_id new), Hmap.
      by rewrite length_map. }
    lia.
Qed.

Lemma monitor_all_admins_isolates_panel_failure_witness :
  exists w' new,
    monitor_all_admins sample_env sample_world = (Ret tt, w')
    /\ db_usage_reports w' = db_usage_reports sample_world ++ new
    /\ List.map UsageReportModel.admin_user_id new
       = List.map Admin.user_id
           (List.filter
              (fun a => Admin.is_active a && negb (Z.eqb (Admin.id a) (Admin.id bob)))
              (db_admins sample_world))
    /\ length new = (length (List.filter Admin.is_active (db_admins sample_world)) - 1)%nat.
Proof.
  apply (monitor_all_admins_isolates_panel_failure sample_env sample_world bob).
  - repeat split.
  - cbn. repeat (apply NoDup_cons_2; [compute_done|]). apply NoDup_nil_2.
  - right. left. reflexivity.
  - reflexivity.
  - reflexivity.
  - intros a [<-|[<-|[<-|[<-|[]]]]] Hactive Hne; try discriminate. by destruct Hne.
Defined.

Example sample_cycle_reports :
  List.map UsageReportModel.admin_user_id
    (db_usage_reports (monitor_all_admins sample_env sample_world).2)
  = [101%Z; 104%Z].
Proof. reflexivity. Qed.

(** ** The orchestrator *)

Lemma monitor_all_admins_keeps_orchestrator (E : Env) :
  keeps orchestrator (monitor_all_admins E).
Proof.
  unfold monitor_all_admins, monitor_admin, cleanup_expired_users,
    check_admin_limits_by_id, handle_limit_exceeded, handle_limit_warning.
  keeps_tac.
Qed.

Lemma run_auto_backup_keeps_orchestrator (E : Env) :
  keeps orchestrator (run_auto_backup E).
Proof. unfold run_auto_backup. keeps_tac. Qed.

Lemma monitor_all_admins_returns (E : Env) (w : World) :
  exists w', monitor_all_admins E w = (Ret tt, w').
Proof. apply try_except_print. Qed.

Lemma run_auto_backup_returns (E : Env) (w : World) :
  exists w', run_auto_backup E w = (Ret tt, w').
Proof. apply try_except_print. Qed.

(** The dict lookup of [start]: one of three fixed schedules. *)
Lemma cron_expression_of_cases (v : backup_interval) :
  (v = IntervalStr "daily" /\ cron_expression_of v = "0 0 * * *")
  \/ (v = IntervalStr "weekly" /\ cron_expression_of v = "0 0 * * 0")
  \/ (v = IntervalStr "monthly" /\ cron_expression_of v = "0 0 1 * *")
  \/ (v <> IntervalStr "daily" /\ v <> IntervalStr "weekly"
      /\ v <> IntervalStr "monthly" /\ cron_expression_of v = "0 0 * * *").
Proof.
  destruct (decide (v = IntervalStr "daily")) as [->|H1]; [left; by split|].
  destruct (decide (v = IntervalStr "weekly")) as [->|H2]; [right; left; by split|].
  destruct (decide (v = IntervalStr "monthly")) as [->|H3];
    [right; right; left; by split|].
  right; right; right. repeat split; try assumption.
  unfold cron_expression_of, cron_table.
  by rewrite !lookup_insert_ne, lookup_empty.
Qed.

(** Every schedule that [start] can look up has five fields. *)
Lemma cron_expression_of_parses (v : backup_interval) :
  exists trig, CronTrigger_from_crontab (cron_expression_of v) = mret trig.
Proof.
  destruct (cron_expression_of_cases v)
    as [[_ ->]|[[_ ->]|[[_ ->]|(_ & _ & _ & ->)]]]; by eexists.
Qed.

(** [start] on a stopped orchestrator, step by step. *)
Lemma start_when_stopped (E : Env) (w : World) (trig : trigger) :
  is_running w = false ->
  aps_running w = false ->
  CronTrigger_from_crontab (cron_expression_of (Config.BACKUP_INTERVAL (config E)))
  = mret trig ->
  exists w1 w2 w3,
    before_prime_run w w1
    /\ orchestrator w1
       = (true,
          <["auto_backup" := auto_backup_job trig]>
            (<["admin_monitor" := admin_monitor_job E]> (aps_jobs w)),
          true)
    /\ monitor_all_admins E w1 = (Ret tt, w2)
    /\ run_auto_backup E w2 = (Ret tt, w3)
    /\ start E w = (Ret tt, w3)
    /\ orchestrator w3 = orchestrator w1.
Proof.
  intros Hstopped Htimer Htrig.
  unfold start. rewrite Hstopped.
  rewrite (bind_ret (print _) _ _ _ tt eq_refl).
  rewrite (bind_ret (scheduler_add_job _ _) _ _ _ tt eq_refl).
  rewrite Htrig.
  rewrite (bind_ret (mret trig) _ _ _ trig eq_refl).
  rewrite (bind_ret (scheduler_add_job _ _) _ _ _ tt eq_refl).
  match goal with |- context [ (scheduler_start ≫= _) ?w0 ] => set (w0' := w0) end.
  assert (Hs : scheduler_start w0' = (Ret tt, set_aps_running true w0')).
  { unfold scheduler_start. subst w0'. cbn. by rewrite Htimer. }
  rewrite (bind_ret scheduler_start _ _ _ _ Hs).
  rewrite (bind_ret _ _ (set_aps_running true w0')
             (set_is_running true (set_aps_running true w0')) tt eq_refl).
  rewrite (bind_ret (print _) _ _ _ tt eq_refl).
  match goal with |- context [ (monitor_all_admins E ≫= _) ?w0 ] => set (w1 := w0) end.
  destruct (monitor_all_admins_returns E w1) as [w2 Hmonitor].
  destruct (run_auto_backup_returns E w2) as [w3 Hbackup].
  exists w1, w2, w3.
  split; [by repeat split|].
  split; [by subst w1 w0'|].
  split; [exact Hmonitor|]. split; [exact Hbackup|].
  split; [by rewrite (bind_ret _ _ _ _ _ Hmonitor)|].
  rewrite (keeps_run _ _ _ _ _ (run_auto_backup_keeps_orchestrator E) Hbackup).
  exact (keeps_run _ _ _ _ _ (monitor_all_admins_keeps_orchestrator E) Hmonitor).
Qed.

Lemma stop_when_running (w : World) :
  is_running w = true ->
  aps_running w = true ->
  stop w
  = (Ret tt,
     set_stdout (fun l => l ++ ["Scheduler stopped."])
       (set_is_running false
          (set_aps_running false
             (set_aps_jobs (fun _ => ∅)
                (set_stdout (fun l => l ++ ["Stopping scheduler..."]) w))))).
Proof.
  intros Hrunning Htimer. unfold stop. rewrite Hrunning. cbn [negb].
  rewrite (bind_ret (print _) _ _ _ tt eq_refl).
  unfold scheduler_shutdown, mbind, M_bind. cbn. by rewrite Htimer.
Qed.



Example sample_start_registers_two_jobs :
  aps_jobs (start sample_env sample_world).2
  = <["auto_backup" := auto_backup_job (CronTrigger "0" "0" "*" "*" "*")]>
      (<["admin_monitor" := admin_monitor_job sample_env]> ∅).
Proof. reflexivity. Qed.

(** ** The backup schedule *)

Lemma cron_expression_of_weekly_monthly :
  cron_expression_of (IntervalStr "daily") = "0 0 * * *"
  /\ cron_expression_of (IntervalStr "weekly") = "0 0 * * 0"
  /\ cron_expression_of (IntervalStr "monthly") = "0 0 1 * *".
Proof. repeat split. Qed.

(** Whatever [int] accepts, the loaded integer takes the default
    schedule. *)
Lemma cron_expression_of_loaded_integer (py_int : string -> option Z)
    (raw : string) (n : Z) :
  py_int raw = Some n ->
  load_BACKUP_INTERVAL py_int raw = IntervalInt n
  /\ cron_expression_of (load_BACKUP_INTERVAL py_int raw) = "0 0 * * *".
Proof.
  intros H. unfold load_BACKUP_INTERVAL. rewrite H. by split.
Qed.



(** ** The running flag follows the timer

    [start] and [stop] are the only writers of the two flags, and they
    keep them equal, from [init_scheduler] on. *)

Lemma init_scheduler_consistent (admins : list Admin.t) :
  consistent (init_scheduler admins).
Proof. reflexivity. Qed.

Lemma start_consistent (E : Env) (w : World) :
  consistent w -> consistent (start E w).2.
Proof.
  unfold consistent. intros Hc.
  destruct (is_running w) eqn:Hrunning.
  - unfold start. rewrite Hrunning. cbn. by rewrite Hc.
  - destruct (cron_expression_of_parses (Config.BACKUP_INTERVAL (config E)))
      as [trig Htrig].
    destruct (start_when_stopped E w trig Hrunning Hc Htrig)
      as (w1 & w2 & w3 & _ & Horch & _ & _ & Hstart & Hkept).
    rewrite Hstart. cbn. rewrite Horch in Hkept.
    unfold orchestrator in Hkept. injection Hkept as -> _ ->. reflexivity.
Qed.

Lemma stop_consistent (w : World) :
  consistent w -> consistent (stop w).2.
Proof.
  unfold consistent. intros Hc.
  destruct (is_running w) eqn:Hrunning.
  - by rewrite stop_when_running.
  - unfold stop. rewrite Hrunning. cbn. by rewrite Hc.
Qed.

(** * Further properties of the scheduler *)

(** ** What the scheduler never writes *)






(** ** Rules for lists that only grow *)

Lemma grows_keeps {A T : Type} (f : World -> list T) (P : T -> Prop) (m : M A) :
  keeps f m -> grows f P m.
Proof. intros Hk w. exists []. rewrite app_nil_r. split; [apply Hk|constructor]. Qed.

Lemma grows_bind {A B T : Type} (f : World -> list T) (P : T -> Prop)
    (m : M A) (k : A -> M B) :
  grows f P m -> (forall a, grows f P (k a)) -> grows f P (m ≫= k).
Proof.
  intros Hm Hk w. unfold mbind, M_bind.
  destruct (Hm w) as (new1 & H1 & HP1). destruct (m w) as [[a|e] w1]; cbn in *.
  - destruct (Hk a w1) as (new2 & H2 & HP2).
    exists (new1 ++ new2). rewrite H2, H1, app_assoc. split; [reflexivity|].
    by apply Forall_app.
  - by exists new1.
Qed.

Lemma grows_try_except {A T : Type} (f : World -> list T) (P : T -> Prop)
    (body : M A) (h : exn -> M A) :
  grows f P body -> (forall e, grows f P (h e)) -> grows f P (try_except body h).
Proof.
  intros Hm Hh w. unfold try_except.
  destruct (Hm w) as (new1 & H1 & HP1). destruct (body w) as [[a|e] w1]; cbn in *.
  - by exists new1.
  - destruct (Hh e w1) as (new2 & H2 & HP2).
    exists (new1 ++ new2). rewrite H2, H1, app_assoc. split; [reflexivity|].
    by apply Forall_app.
Qed.

Lemma grows_try_assign_except {A B T : Type} (f : World -> list T) (P : T -> Prop)
    (first : M A) (rest : A -> M B) (h : local A -> exn -> M B) :
  grows f P first -> (forall a, grows f P (rest a)) -> (forall x e, grows f P (h x e)) ->
  grows f P (try_assign_except first rest h).
Proof.
  intros Hm Hr Hh w. unfold try_assign_except.
  destruct (Hm w) as (new1 & H1 & HP1). destruct (first w) as [[a|e] w1]; cbn in *.
  - destruct (grows_try_except f P (rest a) (h (Bound a)) (Hr a) (Hh (Bound a)) w1)
      as (new2 & H2 & HP2).
    exists (new1 ++ new2). rewrite H2, H1, app_assoc. split; [reflexivity|].
    by apply Forall_app.
  - destruct (Hh Unbound e w1) as (new2 & H2 & HP2).
    exists (new1 ++ new2). rewrite H2, H1, app_assoc. split; [reflexivity|].
    by apply Forall_app.
Qed.

Lemma grows_for_each {A T : Type} (f : World -> list T) (P : T -> Prop)
    (xs : list A) (body : A -> M unit) :
  (forall x, grows f P (body x)) -> grows f P (for_each xs body).
Proof.
  intros Hb. induction xs as [|x xs IH]; cbn [for_each].
  - apply grows_keeps, keeps_ret.
  - apply grows_bind; auto.
Qed.

Lemma grows_for_fold {A S T : Type} (f : World -> list T) (P : T -> Prop)
    (xs : list A) (body : S -> A -> M S) (s : S) :
  (forall s x, grows f P (body s x)) -> grows f P (for_fold xs body s).
Proof.
  intros Hb. revert s. induction xs as [|x xs IH]; intros s; cbn [for_fold].
  - apply grows_keeps, keeps_ret.
  - apply grows_bind; auto.
Qed.

Ltac grows_step :=
  first
    [ solve [auto]
    | progress cbv zeta
    | apply grows_bind
    | apply grows_try_except
    | apply grows_try_assign_except
    | apply grows_for_each
    | apply grows_for_fold
    | match goal with
      | |- grows _ _ (if ?b then _ else _) => destruct b
      | |- grows _ _ (match ?x with _ => _ end) => destruct x
      | |- grows _ _ (let '(_, _) := ?x in _) => destruct x
      end
    | match goal with |- forall _, _ => intro end
    | match goal with |- grows _ _ _ => apply grows_keeps; solve [keeps_leaf] end ].

Ltac grows_tac := repeat grows_step.

(** ** The panel calls of a cycle *)

Lemma marzban_api_get_admin_stats_grows (E : Env) (username : string) :
  grows panel_calls is_stats_call (marzban_api_get_admin_stats E username).
Proof.
  intros w. exists [CallGetAdminStats username].
  unfold marzban_api_get_admin_stats.
  destruct (get_admin_stats E username); cbn; (split; [reflexivity|]);
    by repeat constructor.
Qed.

Lemma monitor_all_admins_without_reaper (E : Env) :
  Config.AUTO_DELETE_EXPIRED_USERS (config E) = false ->
  grows panel_calls is_stats_call (monitor_all_admins E).
Proof.
  intros Hoff. pose proof (marzban_api_get_admin_stats_grows E).
  unfold monitor_all_admins, monitor_admin, check_admin_limits_by_id,
    handle_limit_exceeded, handle_limit_warning.
  rewrite Hoff. grows_tac.
Qed.

(** With [AUTO_DELETE_EXPIRED_USERS] off, neither a cycle nor [start]
    (with its prime run) ever calls [get_users] or [remove_user]: the only
    panel calls they add are [get_admin_stats] calls, whatever the store,
    the panel and the bot do. *)
Theorem reaper_is_skippable (E : Env) (w : World) :
  Config.AUTO_DELETE_EXPIRED_USERS (config E) = false ->
  (exists new,
     panel_calls (monitor_all_admins E w).2 = panel_calls w ++ new
     /\ Forall is_stats_call new)
  /\ (exists new,
        panel_calls (start E w).2 = panel_calls w ++ new
        /\ Forall is_stats_call new).
Proof.
  intros Hoff. pose proof (monitor_all_admins_without_reaper E Hoff) as Hmonitor.
  split; [apply Hmonitor|].
  unfold start. destruct (is_running w).
  - exists []. rewrite app_nil_r. by split.
  - match goal with |- exists new, panel_calls (?m w).2 = _ /\ _ =>
      enough (grows panel_calls is_stats_call m) as Hg by apply Hg end.
    unfold run_auto_backup. grows_tac.
Qed.

Lemma reaper_is_skippable_witness :
  (exists new,
     panel_calls (monitor_all_admins quiet_env sample_world).2
     = panel_calls sample_world ++ new
     /\ Forall is_stats_call new)
  /\ (exists new,
        panel_calls (start quiet_env sample_world).2 = panel_calls sample_world ++ new
        /\ Forall is_stats_call new).
Proof. apply (reaper_is_skippable quiet_env sample_world). reflexivity. Defined.

(** ** The reaper *)

Lemma cleanup_expired_users_unfold (E : Env) :
  cleanup_expired_users E
  = try_except
      (admins ← db_get_all_admins E;
       total_cleaned ← for_fold admins (reaper_admin_step E) 0%Z;
       (if (0 <? total_cleaned)%Z
        then
          timestamp ← datetime_now E;
          db_add_log E
            (LogModel.mk None "expired_users_cleanup"
               ("Automatically cleaned up " +:+ str_int total_cleaned +:+ " expired users")
               timestamp)
        else mret tt);;
       t ← datetime_now E;
       print ("Expired users cleanup completed. Removed " +:+ str_int total_cleaned
              +:+ " users at " +:+ str_datetime E t))
      (fun e => print ("Error in cleanup_expired_users: " +:+ str_exn e)).
Proof. reflexivity. Qed.

Lemma reaper_users_loop (E : Env) (admin_username : string)
    (users : list PanelUser.t) (total : Z) (w : World) :
  exists w',
    for_fold users (reaper_user_step E admin_username) total w
    = (Ret (total + Z.of_nat (length (List.filter (removal_succeeds E) users)))%Z, w')
    /\ panel_calls w'
       = panel_calls w ++ List.map (fun u => CallRemoveUser (PanelUser.username u)) users
    /\ sleeps w'
       = sleeps w ++ List.map (fun _ => (1 # 10)%Q) (List.filter (removal_returns E) users)
    /\ reaper_frame w' = reaper_frame w.
Proof.
  revert total w. induction users as [|u users IH]; intros total w.
  - exists w. cbn. rewrite Z.add_0_r, !app_nil_r. by repeat split.
  - cbn [for_fold List.map List.filter].
    unfold removal_succeeds at 1, removal_returns at 1.
    assert (exists total1 w1,
              reaper_user_step E admin_username total u w = (Ret total1, w1)
              /\ total1
                 = (total + match remove_user E (PanelUser.username u) with
                            | Some true => 1 | _ => 0 end)%Z
              /\ panel_calls w1 = panel_calls w ++ [CallRemoveUser (PanelUser.username u)]
              /\ sleeps w1
                 = sleeps w ++ match remove_user E (PanelUser.username u) with
                               | Some _ => [(1 # 10)%Q] | None => [] end
              /\ reaper_frame w1 = reaper_frame w)
      as (total1 & w1 & Hstep & -> & Hcalls & Hsleeps & Hframe).
    { unfold reaper_user_step, try_except, mbind, M_bind, marzban_api_remove_user.
      destruct (remove_user E (PanelUser.username u)) as [[|]|]; cbn;
        eexists _, _; (split; [reflexivity|]); cbn;
        rewrite ?Z.add_0_r, ?app_nil_r; by repeat split. }
    rewrite (bind_ret _ _ _ _ _ Hstep).
    destruct (IH (total + match remove_user E (PanelUser.username u) with
                           | Some true => 1 | _ => 0 end)%Z w1)
      as (w' & Hloop & Hcalls' & Hsleeps' & Hframe').
    exists w'. rewrite Hloop, Hcalls', Hcalls, Hsleeps', Hsleeps, Hframe', Hframe.
    destruct (remove_user E (PanelUser.username u)) as [[|]|]; cbn [length];
      rewrite <- ?app_assoc; cbn [app]; repeat split;
      apply (f_equal (fun x => (Ret x, w'))); lia.
Qed.

Lemma reaper_admin_step_effects (E : Env) (admin : Admin.t) (total : Z) (w : World) :
  exists w',
    reaper_admin_step E total admin w
    = (Ret (total
            + if Admin.is_active admin
              then Z.of_nat (length (List.filter (removal_succeeds E) (listed_users E admin)))
              else 0)%Z, w')
    /\ panel_calls w'
       = panel_calls w ++ (if Admin.is_active admin then reaper_calls_of E admin else [])
    /\ sleeps w'
       = sleeps w ++ (if Admin.is_active admin then reaper_sleeps_of E admin else [])
    /\ reaper_frame w' = reaper_frame w.
Proof.
  unfold reaper_admin_step, reaper_calls_of, reaper_sleeps_of, listed_users.
  destruct (Admin.is_active admin); cbn [negb].
  - unfold try_except, marzban_api_get_users.
    cbv zeta. unfold mbind at 1, M_bind at 1.
    destruct (get_users E (admin_username_of admin)) as [users|].
    + destruct (reaper_users_loop E (admin_username_of admin) users total
                  (set_panel_calls
                     (fun l => l ++ [CallGetUsers (admin_username_of admin)]) w))
        as (w1 & Hloop & Hcalls & Hsleeps & Hframe).
      rewrite (bind_ret _ _ _ _ _ Hloop).
      unfold reaper_frame, orchestrator in *. cbn in Hcalls, Hsleeps, Hframe.
      eexists. split; [reflexivity|]. cbn.
      rewrite Hcalls, Hsleeps, <- !app_assoc. by repeat split.
    + cbn. eexists. split; [by rewrite Z.add_0_r|]. cbn. rewrite app_nil_r. by repeat split.
  - exists w. cbn. rewrite Z.add_0_r, !app_nil_r. by repeat split.
Qed.

Lemma reaper_admins_loop (E : Env) (admins : list Admin.t) (total : Z) (w : World) :
  exists w',
    for_fold admins (reaper_admin_step E) total w
    = (Ret (total + removed_total E admins)%Z, w')
    /\ panel_calls w'
       = panel_calls w
         ++ List.concat (List.map (reaper_calls_of E) (List.filter Admin.is_active admins))
    /\ sleeps w'
       = sleeps w
         ++ List.concat (List.map (reaper_sleeps_of E) (List.filter Admin.is_active admins))
    /\ reaper_frame w' = reaper_frame w.
Proof.
  revert total w. induction admins as [|a admins IH]; intros total w.
  - exists w. cbn. rewrite Z.add_0_r, !app_nil_r. by repeat split.
  - destruct (reaper_admin_step_effects E a total w)
      as (w1 & Hstep & Hcalls & Hsleeps & Hframe).
    cbn [for_fold]. rewrite (bind_ret _ _ _ _ _ Hstep).
    destruct (IH (total
                  + if Admin.is_active a
                    then Z.of_nat (length (List.filter (removal_succeeds E)
                                             (listed_users E a)))
                    else 0)%Z w1)
      as (w' & Hloop & Hcalls' & Hsleeps' & Hframe').
    exists w'. rewrite Hloop, Hcalls', Hcalls, Hsleeps', Hsleeps, Hframe', Hframe.
    unfold removed_total. cbn [List.filter].
    destruct (Admin.is_active a); cbn [List.map List.concat];
      rewrite ?length_app, ?app_nil_r, <- ?app_assoc; repeat split;
      apply (f_equal (fun x => (Ret x, w'))); lia.
Qed.

(** The reaper up to the end of its loops. *)
Lemma cleanup_expired_users_after_loops (E : Env) (w : World) :
  get_all_admins_raises E = false ->
  exists w1,
    for_fold (db_admins w) (reaper_admin_step E) 0%Z w
    = (Ret (removed_total E (db_admins w)), w1)
    /\ panel_calls w1
       = panel_calls w
         ++ List.concat (List.map (reaper_calls_of E)
                           (List.filter Admin.is_active (db_admins w)))
    /\ sleeps w1
       = sleeps w
         ++ List.concat (List.map (reaper_sleeps_of E)
                           (List.filter Admin.is_active (db_admins w)))
    /\ reaper_frame w1 = reaper_frame w
    /\ cleanup_expired_users E w
       = try_except
           ((if (0 <? removed_total E (db_admins w))%Z
             then
               timestamp ← datetime_now E;
               db_add_log E
                 (LogModel.mk None "expired_users_cleanup"
                    ("Automatically cleaned up "
                     +:+ str_int (removed_total E (db_admins w)) +:+ " expired users")
                    timestamp)
             else mret tt);;
            t ← datetime_now E;
            print ("Expired users cleanup completed. Removed "
                   +:+ str_int (removed_total E (db_admins w))
                   +:+ " users at " +:+ str_datetime E t))
           (fun e => print ("Error in cleanup_expired_users: " +:+ str_exn e)) w1.
Proof.
  intros Hall.
  destruct (reaper_admins_loop E (db_admins w) 0 w) as (w1 & Hloop & Hcalls & Hsleeps & Hframe).
  rewrite Z.add_0_l in Hloop.
  exists w1. do 4 (split; [assumption|]).
  rewrite cleanup_expired_users_unfold. unfold try_except.
  unfold db_get_all_admins at 1. unfold mbind at 1, M_bind at 1. rewrite Hall.
  by rewrite (bind_ret _ _ _ _ _ Hloop).
Qed.

(** The whole reaper, when the store can list the admins. *)
Lemma cleanup_expired_users_effects (E : Env) (w : World) :
  get_all_admins_raises E = false ->
  exists w',
    cleanup_expired_users E w = (Ret tt, w')
    /\ panel_calls w'
       = panel_calls w
         ++ List.concat (List.map (reaper_calls_of E)
                           (List.filter Admin.is_active (db_admins w)))
    /\ sleeps w'
       = sleeps w
         ++ List.concat (List.map (reaper_sleeps_of E)
                           (List.filter Admin.is_active (db_admins w)))
    /\ db_admins w' = db_admins w
    /\ db_usage_reports w' = db_usage_reports w
    /\ sent_messages w' = sent_messages w.
Proof.
  intros Hall.
  destruct (cleanup_expired_users_after_loops E w Hall)
    as (w1 & _ & Hcalls & Hsleeps & Hframe & Hrun).
  unfold reaper_frame in Hframe. injection Hframe as Hadmins Hreports _ Hsent _ _.
  destruct (try_except_print
              ((if (0 <? removed_total E (db_admins w))%Z
                then
                  timestamp ← datetime_now E;
                  db_add_log E
                    (LogModel.mk None "expired_users_cleanup"
                       ("Automatically cleaned up "
                        +:+ str_int (removed_total E (db_admins w)) +:+ " expired users")
                       timestamp)
                else mret tt);;
               t ← datetime_now E;
               print ("Expired users cleanup completed. Removed "
                      +:+ str_int (removed_total E (db_admins w))
                      +:+ " users at " +:+ str_datetime E t))
              (fun e => "Error in cleanup_expired_users: " +:+ str_exn e) w1)
    as [w' Htail].
  exists w'. rewrite Hrun. split; [exact Htail|].
  rewrite <- Hcalls, <- Hsleeps, <- Hadmins, <- Hreports, <- Hsent.
  repeat split; (eapply keeps_run; [|exact Htail]); keeps_tac.
Qed.

(** The reaper asks the panel for the users of every active admin, in
    enumeration order, and calls [remove_user] for every user listed,
    expired or not; a listing or a removal that raises does not stop it.
    It pauses a tenth of a second after every removal that returned and
    half a second after every admin whose users could be listed. *)
Theorem reaper_panel_calls_and_pacing (E : Env) (w : World) :
  get_all_admins_raises E = false ->
  exists w',
    cleanup_expired_users E w = (Ret tt, w')
    /\ panel_calls w'
       = panel_calls w
         ++ List.concat (List.map (reaper_calls_of E)
                           (List.filter Admin.is_active (db_admins w)))
    /\ sleeps w'
       = sleeps w
         ++ List.concat (List.map (reaper_sleeps_of E)
                           (List.filter Admin.is_active (db_admins w))).
Proof.
  intros Hall.
  destruct (cleanup_expired_users_effects E w Hall) as (w' & Hrun & Hcalls & Hsleeps & _).
  by exists w'.
Qed.

Lemma reaper_panel_calls_and_pacing_witness :
  exists w',
    cleanup_expired_users sample_env sample_world = (Ret tt, w')
    /\ panel_calls w'
       = panel_calls sample_world
         ++ List.concat (List.map (reaper_calls_of sample_env)
                           (List.filter Admin.is_active (db_admins sample_world)))
    /\ sleeps w'
       = sleeps sample_world
         ++ List.concat (List.map (reaper_sleeps_of sample_env)
                           (List.filter Admin.is_active (db_admins sample_world))).
Proof. apply (reaper_panel_calls_and_pacing sample_env sample_world). reflexivity. Defined.

(** When the store answers, the reaper writes one log entry that carries
    the number of removals for which [remove_user] answered [True], and no
    entry at all when there was none. *)
Theorem reaper_logs_the_successful_removals (E : Env) (w : World) :
  get_all_admins_raises E = false ->
  (forall entry, add_log_raises E entry = false) ->
  exists w',
    cleanup_expired_users E w = (Ret tt, w')
    /\ db_logs w'
       = db_logs w
         ++ if (0 <? removed_total E (db_admins w))%Z
            then [LogModel.mk None "expired_users_cleanup"
                    ("Automatically cleaned up "
                     +:+ str_int (removed_total E (db_admins w)) +:+ " expired users")
                    (now E (ticks w))]
            else [].
Proof.
  intros Hall Hlog.
  destruct (cleanup_expired_users_after_loops E w Hall)
    as (w1 & _ & _ & _ & Hframe & Hrun).
  unfold reaper_frame in Hframe. injection Hframe as _ _ Hlogs _ Hticks _.
  rewrite Hrun. unfold try_except, mbind, M_bind.
  destruct (0 <? removed_total E (db_admins w))%Z.
  - cbn. unfold db_add_log. rewrite Hlog. cbn.
    eexists. split; [reflexivity|]. cbn. by rewrite Hlogs, Hticks.
  - cbn. eexists. split; [reflexivity|]. cbn. by rewrite Hlogs, app_nil_r.
Qed.

Lemma reaper_logs_the_successful_removals_witness :
  exists w',
    cleanup_expired_users sample_env sample_world = (Ret tt, w')
    /\ db_logs w'
       = db_logs sample_world
         ++ if (0 <? removed_total sample_env (db_admins sample_world))%Z
            then [LogModel.mk None "expired_users_cleanup"
                    ("Automatically cleaned up "
                     +:+ str_int (removed_total sample_env (db_admins sample_world))
                     +:+ " expired users")
                    (now sample_env (ticks sample_world))]
            else [].
Proof.
  apply (reaper_logs_the_successful_removals sample_env sample_world); reflexivity.
Defined.

(** ** The warning notification *)




Lemma handle_limit_warning_sends (E : Env) (w0 w : World) (i : Z)
    (admin : Admin.t) (admin_stats : AdminStats.t) :
  Admin.id admin = i ->
  get_admin_by_id_raises E (Some i) = false ->
  List.find (fun a => Z.eqb (Admin.id a) i) (db_admins w) = Some admin ->
  exists w',
    handle_limit_warning E (result_at E w0 admin admin_stats) w = (Ret tt, w')
    /\ sent_messages w'
       = sent_messages w
         ++ warning_notification E admin (warning_percent_at E w0 admin admin_stats).
Proof.
  intros Hid Hok Hfound.
  pose proof (limits_data_of_lookup admin admin_stats (elapsed_at E w0 admin)
    (time_percentage_at E w0 admin) (user_percentage_at admin admin_stats)
    (traffic_percentage_at admin admin_stats)) as (Ht & Hu & Htr & _).
  unfold handle_limit_warning, try_except, mbind, M_bind, db_get_admin_by_id.
  cbn [result_at LimitCheckResult.admin_id]. rewrite Hid, Hok, Hfound.
  unfold warning_notification, config_MESSAGES, limits_data_get.
  cbn [result_at LimitCheckResult.limits_data].
  destruct (Config.MESSAGES (config E) !! "limit_warning") as [template|]; cbn.
  - rewrite Hu, Htr, Ht. cbn. fold (warning_percent_at E w0 admin admin_stats).
    unfold format, bot_send_message.
    destruct (str_format E template _) as [text|]; cbn.
    + destruct (send_message_raises E (ChatInt (Admin.user_id admin)) text); cbn;
        eexists; (split; [reflexivity|]); cbn; by rewrite ?app_nil_r.
    + eexists; (split; [reflexivity|]); cbn; by rewrite app_nil_r.
  - eexists; (split; [reflexivity|]); cbn; by rewrite app_nil_r.
Qed.



Example frank_is_warned_at_seventy_percent :
  sent_messages (monitor_admin sample_env frank (init_scheduler [erin; frank])).2
  = [(ChatInt 106, "You have used {percent}% of your limit. <- 70")].
Proof. vm_compute. reflexivity. Qed.

(** ** The effects of one cycle *)

Lemma handle_limit_exceeded_keeps_dispatch_frame (E : Env) result :
  keeps dispatch_frame (handle_limit_exceeded E result).
Proof. unfold handle_limit_exceeded. keeps_tac. Qed.

Lemma handle_limit_warning_keeps_dispatch_frame (E : Env) result :
  keeps dispatch_frame (handle_limit_warning E result).
Proof. unfold handle_limit_warning. keeps_tac. Qed.

Lemma notification_of_chats (E : Env) (w : World) (a : Admin.t) (s : AdminStats.t) :
  sublist (List.map fst (notification_of E w a s)) [ChatInt (Admin.user_id a)].
Proof.
  unfold notification_of, exceeded_notification, warning_notification.
  repeat case_match; cbn; by (apply sublist_nil_l || reflexivity).
Qed.

(** Everything the loop body does for an admin that the store finds. *)
Lemma monitor_admin_effects (E : Env) (a : Admin.t) (w : World) :
  store_answers E ->
  List.find (fun x => Z.eqb (Admin.id x) (Admin.id a)) (db_admins w) = Some a ->
  exists w',
    monitor_admin E a w = (Ret tt, w')
    /\ db_admins w' = db_admins w
    /\ db_usage_reports w'
       = db_usage_reports w
         ++ (if Admin.is_active a
             then match get_admin_stats E (admin_username_of a) with
                  | Some s => [report_at E w a s]
                  | None => []
                  end
             else [])
    /\ panel_calls w'
       = panel_calls w
         ++ (if Admin.is_active a then [CallGetAdminStats (admin_username_of a)] else [])
    /\ sleeps w' = sleeps w ++ [1%Q]
    /\ sent_messages w'
       = sent_messages w
         ++ (if Admin.is_active a
             then match get_admin_stats E (admin_username_of a) with
                  | Some s => notification_of E w a s
                  | None => []
                  end
             else []).
Proof.
  intros (Hall & Hby_id & Hadd) Hfound.
  unfold monitor_admin, try_except.
  destruct (Admin.is_active a) eqn:Hactive.
  - destruct (get_admin_stats E (admin_username_of a)) as [s|] eqn:Hstats.
    + pose proof (check_admin_limits_by_id_success E w (Admin.id a) a s
                    (Hby_id _) Hfound Hactive Hstats (Hadd _)) as Hcheck.
      rewrite (bind_ret _ _ _ _ _ Hcheck).
      unfold notification_of.
      destruct (LimitCheckResult.exceeded (result_at E w a s)) eqn:Hexc;
        [|destruct (LimitCheckResult.warning (result_at E w a s)) eqn:Hwarn].
      * destruct (handle_limit_exceeded_sends E (result_at E w a s)
                    (world_after_check E w a s) (Admin.id a) a eq_refl (Hby_id _) Hfound)
          as (w2 & Hhandle & Hsent).
        pose proof (keeps_run _ _ _ _ _
                      (handle_limit_exceeded_keeps_dispatch_frame E _) Hhandle) as Hframe.
        unfold dispatch_frame in Hframe. cbn in Hframe.
        injection Hframe as Ha Hr Hp Hs.
        rewrite (bind_ret _ _ _ _ _ Hhandle).
        eexists. split; [reflexivity|]. cbn.
        rewrite Ha, Hr, Hp, Hs, Hsent. by repeat split.
      * destruct (handle_limit_warning_sends E w (world_after_check E w a s)
                    (Admin.id a) a s eq_refl (Hby_id _) Hfound)
          as (w2 & Hhandle & Hsent).
        pose proof (keeps_run _ _ _ _ _
                      (handle_limit_warning_keeps_dispatch_frame E _) Hhandle) as Hframe.
        unfold dispatch_frame in Hframe. cbn in Hframe.
        injection Hframe as Ha Hr Hp Hs.
        rewrite (bind_ret _ _ _ _ _ Hhandle).
        eexists. split; [reflexivity|]. cbn.
        rewrite Ha, Hr, Hp, Hs, Hsent. by repeat split.
      * eexists. split; [reflexivity|]. cbn. rewrite app_nil_r. by repeat split.
    + assert (exists line,
                check_admin_limits_by_id E (Admin.id a) w
                = (Ret (LimitCheckResult.neutral (Admin.user_id a)),
                   set_stdout (fun l => l ++ [line])
                     (set_panel_calls
                        (fun l => l ++ [CallGetAdminStats (admin_username_of a)]) w)))
        as [line Hcheck].
      { unfold check_admin_limits_by_id, try_assign_except, db_get_admin_by_id.
        rewrite Hby_id, Hfound, Hactive. cbn [negb].
        unfold try_except, mbind, M_bind, marzban_api_get_admin_stats.
        rewrite Hstats. cbn. by eexists. }
      rewrite (bind_ret _ _ _ _ _ Hcheck). cbn.
      eexists. split; [reflexivity|]. cbn. rewrite !app_nil_r. by repeat split.
  - destruct (check_admin_limits_by_id_neutral E w (Admin.id a) (Hby_id _)) as [uid Hcheck].
    { intros a' Ha'. rewrite Hfound in Ha'. by injection Ha' as <-. }
    rewrite (bind_ret _ _ _ _ _ Hcheck). cbn.
    eexists. split; [reflexivity|]. cbn. rewrite !app_nil_r. by repeat split.
Qed.

Lemma monitor_loop_effects (E : Env) (l : list Admin.t) (w : World) :
  store_answers E ->
  NoDup (List.map Admin.id (db_admins w)) ->
  (forall a, In a l -> In a (db_admins w)) ->
  exists w' reports messages,
    for_each l (monitor_admin E) w = (Ret tt, w')
    /\ db_admins w' = db_admins w
    /\ db_usage_reports w' = db_usage_reports w ++ reports
    /\ Forall2 (report_matches E) reports (List.filter (reported E) l)
    /\ panel_calls w'
       = panel_calls w
         ++ List.map (fun a => CallGetAdminStats (admin_username_of a))
              (List.filter Admin.is_active l)
    /\ sleeps w' = sleeps w ++ List.map (fun _ => 1%Q) l
    /\ sent_messages w' = sent_messages w ++ messages
    /\ sublist (List.map fst messages)
         (List.map (fun a => ChatInt (Admin.user_id a)) (List.filter (reported E) l)).
Proof.
  intros Hstore. revert w.
  induction l as [|a l IH]; intros w Hnd Hin.
  - exists w, [], []. cbn. rewrite !app_nil_r. repeat split; constructor.
  - destruct (monitor_admin_effects E a w Hstore)
      as (w1 & Hrun & Hadmins & Hrep & Hcalls & Hsleeps & Hsent).
    { apply find_by_id_NoDup; [exact Hnd|]. apply Hin. by left. }
    destruct (IH w1) as (w2 & reports & messages & Hrun2 & Hadmins2 & Hrep2 & Hmatch
                         & Hcalls2 & Hsleeps2 & Hsent2 & Hsub).
    { by rewrite Hadmins. }
    { intros a' Ha'. rewrite Hadmins. apply Hin. by right. }
    cbn [for_each]. rewrite (bind_ret _ _ _ _ _ Hrun).
    rewrite Hrep in Hrep2. rewrite Hcalls in Hcalls2. rewrite Hsleeps in Hsleeps2.
    rewrite Hsent in Hsent2. rewrite <- app_assoc in Hrep2, Hcalls2, Hsleeps2, Hsent2.
    assert (Hreported : reported E a
                        = Admin.is_active a
                          && match get_admin_stats E (admin_username_of a) with
                             | Some _ => true
                             | None => false
                             end) by reflexivity.
    cbn [List.filter List.map]. rewrite !Hreported. clear Hreported.
    destruct (Admin.is_active a) eqn:Hactive; cbn [andb].
    + destruct (get_admin_stats E (admin_username_of a)) as [s|] eqn:Hstats.
      * exists w2, (report_at E w a s :: reports), (notification_of E w a s ++ messages).
        split; [exact Hrun2|]. split; [congruence|]. split; [exact Hrep2|].
        split.
        { constructor; [|exact Hmatch].
          unfold report_matches. cbn. repeat split. by exists s. }
        split; [exact Hcalls2|]. split; [exact Hsleeps2|]. split; [exact Hsent2|].
        rewrite map_app. cbn [List.map].
        apply (sublist_app _ [_]); [apply notification_of_chats|exact Hsub].
      * exists w2, reports, messages.
        split; [exact Hrun2|]. split; [congruence|]. by repeat split.
    + exists w2, reports, messages.
      split; [exact Hrun2|]. split; [congruence|]. by repeat split.
Qed.

Lemma monitor_all_admins_effects (E : Env) (w : World) :
  store_answers E ->
  NoDup (List.map Admin.id (db_admins w)) ->
  exists w' reports messages,
    monitor_all_admins E w = (Ret tt, w')
    /\ db_usage_reports w' = db_usage_reports w ++ reports
    /\ Forall2 (report_matches E) reports (List.filter (reported E) (db_admins w))
    /\ panel_calls w'
       = panel_calls w
         ++ (if Config.AUTO_DELETE_EXPIRED_USERS (config E)
             then List.concat (List.map (reaper_calls_of E)
                                 (List.filter Admin.is_active (db_admins w)))
             else [])
         ++ List.map (fun a => CallGetAdminStats (admin_username_of a))
              (List.filter Admin.is_active (db_admins w))
    /\ sleeps w'
       = sleeps w
         ++ (if Config.AUTO_DELETE_EXPIRED_USERS (config E)
             then List.concat (List.map (reaper_sleeps_of E)
                                 (List.filter Admin.is_active (db_admins w)))
             else [])
         ++ match List.filter Admin.is_active (db_admins w) with
            | [] => []
            | _ :: _ => List.map (fun _ => 1%Q) (db_admins w)
            end
    /\ sent_messages w' = sent_messages w ++ messages
    /\ sublist (List.map fst messages)
         (List.map (fun a => ChatInt (Admin.user_id a))
            (List.filter (reported E) (db_admins w))).
Proof.
  intros Hstore Hnd.
  pose proof Hstore as (Hall & _ & _).
  unfold monitor_all_admins, try_except.
  rewrite (bind_ret (datetime_now E) _ w (set_ticks S w) (now E (ticks w)) eq_refl).
  rewrite (bind_ret (print _) _ _ _ tt eq_refl).
  match goal with |- context [ _ (set_stdout ?f (set_ticks S w)) ] =>
    set (w1 := set_stdout f (set_ticks S w)) end.
  assert (exists w2,
            (if Config.AUTO_DELETE_EXPIRED_USERS (config E)
             then cleanup_expired_users E else mret tt) w1 = (Ret tt, w2)
            /\ panel_calls w2
               = panel_calls w
                 ++ (if Config.AUTO_DELETE_EXPIRED_USERS (config E)
                     then List.concat (List.map (reaper_calls_of E)
                                         (List.filter Admin.is_active (db_admins w)))
                     else [])
            /\ sleeps w2
               = sleeps w
                 ++ (if Config.AUTO_DELETE_EXPIRED_USERS (config E)
                     then List.concat (List.map (reaper_sleeps_of E)
                                         (List.filter Admin.is_active (db_admins w)))
                     else [])
            /\ db_admins w2 = db_admins w
            /\ db_usage_reports w2 = db_usage_reports w
            /\ sent_messages w2 = sent_messages w)
    as (w2 & Hc & Hcalls & Hsleeps & Hadmins & Hreports & Hsent).
  { destruct (Config.AUTO_DELETE_EXPIRED_USERS (config E)).
    - destruct (cleanup_expired_users_effects E w1 Hall)
        as (w2 & H & Hp & Hs & Ha & Hr & Hm).
      exists w2. by repeat split.
    - exists w1. cbn. rewrite !app_nil_r. by repeat split. }
  rewrite (bind_ret _ _ _ _ _ Hc).
  unfold db_get_all_admins at 1. unfold mbind at 1, M_bind at 1. rewrite Hall, Hadmins.
  destruct (List.filter Admin.is_active (db_admins w)) as [|a0 rest] eqn:Hactive.
  - eexists _, [], []. split; [reflexivity|]. cbn.
    rewrite !app_nil_r, Hreports, Hcalls, Hsleeps, Hsent.
    assert (List.filter (reported E) (db_admins w) = []) as ->.
    { clear -Hactive. induction (db_admins w) as [|a l IH]; [reflexivity|].
      cbn in *. unfold reported at 1.
      destruct (Admin.is_active a); [discriminate|]. cbn. by apply IH. }
    repeat split; constructor.
  - rewrite (bind_ret (print _) _ _ _ tt eq_refl).
    match goal with |- context [ _ (set_stdout ?f w2) ] =>
      set (w3 := set_stdout f w2) end.
    destruct (monitor_loop_effects E (db_admins w) w3 Hstore)
      as (w4 & reports & messages & Hloop & _ & Hreports4 & Hmatch & Hcalls4
          & Hsleeps4 & Hsent4 & Hsub).
    { subst w3. cbn. by rewrite Hadmins. }
    { subst w3. cbn. rewrite Hadmins. auto. }
    rewrite (bind_ret _ _ _ _ _ Hloop).
    eexists _, reports, messages. split; [reflexivity|]. cbn.
    rewrite Hreports4, Hcalls4, Hsleeps4, Hsent4. subst w3. cbn.
    rewrite Hreports, Hcalls, Hsleeps, Hsent, Hactive, <- !app_assoc.
    by repeat split.
Qed.

(** In a store that answers and whose admins have distinct identifiers,
    one cycle sends its messages only to admins whose evaluation went
    through (active, statistics fetched), at most one message to each, in
    enumeration order. *)
Theorem cycle_notifies_each_evaluated_admin_at_most_once (E : Env) (w : World) :
  store_answers E ->
  NoDup (List.map Admin.id (db_admins w)) ->
  exists w' messages,
    monitor_all_admins E w = (Ret tt, w')
    /\ sent_messages w' = sent_messages w ++ messages
    /\ sublist (List.map fst messages)
         (List.map (fun a => ChatInt (Admin.user_id a))
            (List.filter (reported E) (db_admins w)))
    /\ (length messages <= length (List.filter (reported E) (db_admins w)))%nat.
Proof.
  intros Hstore Hnd.
  destruct (monitor_all_admins_effects E w Hstore Hnd)
    as (w' & reports & messages & Hrun & _ & _ & _ & _ & Hsent & Hsub).
  exists w', messages. repeat split; try assumption.
  apply sublist_length in Hsub. by rewrite !length_map in Hsub.
Qed.

Lemma cycle_notifies_each_evaluated_admin_at_most_once_witness :
  exists w' messages,
    monitor_all_admins sample_env sample_world = (Ret tt, w')
    /\ sent_messages w' = sent_messages sample_world ++ messages
    /\ sublist (List.map fst messages)
         (List.map (fun a => ChatInt (Admin.user_id a))
            (List.filter (reported sample_env) (db_admins sample_world)))
    /\ (length messages
        <= length (List.filter (reported sample_env) (db_admins sample_world)))%nat.
Proof.
  apply (cycle_notifies_each_evaluated_admin_at_most_once sample_env sample_world).
  - repeat split.
  - cbn. repeat (apply NoDup_cons_2; [compute_done|]). apply NoDup_nil_2.
Defined.

(** In such a store, the panel calls of one cycle are those of the reaper
    (when it is switched on) followed by exactly one [get_admin_stats] per
    active admin, in enumeration order: an inactive admin is never looked
    up on the panel.  The cycle then pauses one second per enumerated
    admin, inactive ones included, and not at all when no admin is
    active. *)
Theorem cycle_panel_calls_and_pacing (E : Env) (w : World) :
  store_answers E ->
  NoDup (List.map Admin.id (db_admins w)) ->
  exists w',
    monitor_all_admins E w = (Ret tt, w')
    /\ panel_calls w'
       = panel_calls w
         ++ (if Config.AUTO_DELETE_EXPIRED_USERS (config E)
             then List.concat (List.map (reaper_calls_of E)
                                 (List.filter Admin.is_active (db_admins w)))
             else [])
         ++ List.map (fun a => CallGetAdminStats (admin_username_of a))
              (List.filter Admin.is_active (db_admins w))
    /\ sleeps w'
       = sleeps w
         ++ (if Config.AUTO_DELETE_EXPIRED_USERS (config E)
             then List.concat (List.map (reaper_sleeps_of E)
                                 (List.filter Admin.is_active (db_admins w)))
             else [])
         ++ match List.filter Admin.is_active (db_admins w) with
            | [] => []
            | _ :: _ => List.map (fun _ => 1%Q) (db_admins w)
            end.
Proof.
  intros Hstore Hnd.
  destruct (monitor_all_admins_effects E w Hstore Hnd)
    as (w' & reports & messages & Hrun & _ & _ & Hcalls & Hsleeps & _).
  by exists w'.
Qed.

Lemma cycle_panel_calls_and_pacing_witness :
  exists w',
    monitor_all_admins sample_env sample_world = (Ret tt, w')
    /\ panel_calls w'
       = panel_calls sample_world
         ++ (if Config.AUTO_DELETE_EXPIRED_USERS (config sample_env)
             then List.concat (List.map (reaper_calls_of sample_env)
                                 (List.filter Admin.is_active (db_admins sample_world)))
             else [])
         ++ List.map (fun a => CallGetAdminStats (admin_username_of a))
              (List.filter Admin.is_active (db_admins sample_world))
    /\ sleeps w'
       = sleeps sample_world
         ++ (if Config.AUTO_DELETE_EXPIRED_USERS (config sample_env)
             then List.concat (List.map (reaper_sleeps_of sample_env)
                                 (List.filter Admin.is_active (db_admins sample_world)))
             else [])
         ++ match List.filter Admin.is_active (db_admins sample_world) with
            | [] => []
            | _ :: _ => List.map (fun _ => 1%Q) (db_admins sample_world)
            end.
Proof.
  apply (cycle_panel_calls_and_pacing sample_env sample_world).
  - repeat split.
  - cbn. repeat (apply NoDup_cons_2; [compute_done|]). apply NoDup_nil_2.
Defined.

(** In such a store, one cycle appends one usage report for every active
    admin whose statistics could be fetched and none for anyone else; each
    report carries that admin's [user_id], the user count and the traffic
    the panel reported, the truncated seconds between the admin's creation
    and the check time, and an empty [users_data] list. *)
Theorem cycle_reports_record_the_panel_statistics (E : Env) (w : World) :
  store_answers E ->
  NoDup (List.map Admin.id (db_admins w)) ->
  exists w' reports,
    monitor_all_admins E w = (Ret tt, w')
    /\ db_usage_reports w' = db_usage_reports w ++ reports
    /\ Forall2 (report_matches E) reports (List.filter (reported E) (db_admins w)).
Proof.
  intros Hstore Hnd.
  destruct (monitor_all_admins_effects E w Hstore Hnd)
    as (w' & reports & messages & Hrun & Hreports & Hmatch & _).
  by exists w', reports.
Qed.

Lemma cycle_reports_record_the_panel_statistics_witness :
  exists w' reports,
    monitor_all_admins sample_env sample_world = (Ret tt, w')
    /\ db_usage_reports w' = db_usage_reports sample_world ++ reports
    /\ Forall2 (report_matches sample_env) reports
         (List.filter (reported sample_env) (db_admins sample_world)).
Proof.
  apply (cycle_reports_record_the_panel_statistics sample_env sample_world).
  - repeat split.
  - cbn. repeat (apply NoDup_cons_2; [compute_done|]). apply NoDup_nil_2.
Defined.

(** ** [check_admin_limits], by chat identity *)




(** ** The backup job, whatever the collaborators do *)

(** [run_auto_backup] never raises, and it notifies the operator channel
    only after the log entry of that backup has been stored: whenever a
    message is sent, the backup succeeded, exactly one [auto_backup] entry
    naming the file was appended to the log, and the message is the only
    one sent.  In particular a store whose [add_log] raises silences the
    notification of a backup that was made. *)
Theorem backup_notification_follows_the_log_entry (E : Env) (w : World) :
  (run_auto_backup E w).1 = Ret tt
  /\ (sent_messages (run_auto_backup E w).2 = sent_messages w
      \/ exists entry text,
           (create_backup E true).1 = true
           /\ db_logs (run_auto_backup E w).2 = db_logs w ++ [entry]
           /\ LogModel.action entry = "auto_backup"
           /\ LogModel.details entry
              = "Auto backup created: " +:+ (create_backup E true).2
           /\ sent_messages (run_auto_backup E w).2
              = sent_messages w
                ++ [(ChatStr (Config.TELEGRAM_ADMIN_CHAT_ID (config E)), text)]).
Proof.
  unfold run_auto_backup, try_except, mbind, M_bind, backup_manager_create_backup.
  cbn. destruct (create_backup E true) as [[|] message]; cbn; [|by split; [|left]].
  unfold db_add_log.
  destruct (add_log_raises E _); cbn; [by split; [|left]|].
  destruct (nonempty (Config.TELEGRAM_ADMIN_CHAT_ID (config E))); cbn;
    [|by split; [|left]].
  unfold config_MESSAGES.
  destruct (Config.MESSAGES (config E) !! "backup_success") as [template|]; cbn;
    [|by split; [|left]].
  unfold format.
  destruct (str_format E template _) as [text|]; cbn; [|by split; [|left]].
  unfold bot_send_message.
  destruct (send_message_raises E _ text); cbn; [by split; [|left]|].
  split; [reflexivity|]. right. eexists _, text. by repeat split.
Qed.

Example add_log_failure_silences_the_backup_notification :
  let E := mkEnv sample_config
             (fun _ => false) (fun _ => false) false (fun _ => false) (fun _ => true)
             (get_admin_stats sample_env) (get_users sample_env) (remove_user sample_env)
             (create_backup sample_env) (send_message_raises sample_env)
             (utcnow sample_env) (now sample_env) (str_datetime sample_env)
             (str_format sample_env) in
  create_backup E true = (true, "marzban_backup.tar.gz")
  /\ (run_auto_backup E sample_world).1 = Ret tt
  /\ sent_messages (run_auto_backup E sample_world).2 = []
  /\ db_logs (run_auto_backup E sample_world).2 = [].
Proof. repeat split; vm_compute; reflexivity. Qed.

(** ** The orchestrator over time *)









(** ** Loading [SUDO_ADMINS] *)

Lemma split_on_app (sep : Ascii.ascii) (a b cur : string) :
  split_on sep (a +:+ String sep b) cur = split_on sep a cur ++ split_on sep b "".
Proof.
  revert cur. induction a as [|c a IH]; intros cur; simpl.
  - by rewrite Ascii.eqb_refl.
  - destruct (Ascii.eqb c sep); [|apply IH]. simpl. f_equal. apply IH.
Qed.

Lemma ints_of_pieces_app (py_int : string -> option Z) (xs ys : list string) :
  ints_of_pieces py_int (xs ++ ys)
  = (ns ← ints_of_pieces py_int xs; ms ← ints_of_pieces py_int ys; Some (ns ++ ms)).
Proof.
  induction xs as [|x xs IH]; cbn.
  - destruct (ints_of_pieces py_int ys); reflexivity.
  - destruct (strip_is_nonempty x); [|exact IH].
    destruct (py_int x) as [n|]; [|reflexivity]. cbn. rewrite IH.
    destruct (ints_of_pieces py_int xs) as [ns|]; [|reflexivity]. cbn.
    destruct (ints_of_pieces py_int ys); reflexivity.
Qed.

Lemma strip_is_nonempty_snoc (cur : string) (c : Ascii.ascii) :
  strip_is_nonempty (cur +:+ String c "")
  = strip_is_nonempty cur || negb (is_space c).
Proof.
  induction cur as [|d cur IH].
  - change (negb (is_space c) || false = false || negb (is_space c)).
    by rewrite orb_false_r.
  - change (negb (is_space d) || strip_is_nonempty (cur +:+ String c "")
            = negb (is_space d) || strip_is_nonempty cur || negb (is_space c)).
    by rewrite IH, orb_assoc.
Qed.

Lemma split_on_blank (b cur : string) :
  strip_is_nonempty b = false -> strip_is_nonempty cur = false ->
  forall py_int, ints_of_pieces py_int (split_on comma b cur) = Some [].
Proof.
  revert cur. induction b as [|c b IH]; intros cur Hb Hcur py_int.
  - change (ints_of_pieces py_int [cur] = Some []).
    unfold ints_of_pieces. by rewrite Hcur.
  - change (negb (is_space c) || strip_is_nonempty b = false) in Hb.
    apply orb_false_iff in Hb as [Hc Hb].
    change (ints_of_pieces py_int
              (if Ascii.eqb c comma then cur :: split_on comma b ""
               else split_on comma b (cur +:+ String c "")) = Some []).
    destruct (Ascii.eqb c comma).
    + change (ints_of_pieces py_int (cur :: split_on comma b ""))
        with (if strip_is_nonempty cur
              then n ← py_int cur; ns ← ints_of_pieces py_int (split_on comma b "");
                   Some (n :: ns)
              else ints_of_pieces py_int (split_on comma b "")).
      rewrite Hcur. by apply IH.
    + apply IH; [exact Hb|]. by rewrite strip_is_nonempty_snoc, Hcur, Hc.
Qed.

(** The sudo list of two values joined by a comma is the concatenation of
    their lists, and loading fails as soon as one part fails; a part that
    is empty or holds only white space adds nothing, on either side, so
    that a trailing or a leading comma is harmless. *)
Theorem load_SUDO_ADMINS_of_joined_values
    (py_int : string -> option Z) (a b : string) :
  load_SUDO_ADMINS py_int (a +:+ "," +:+ b)
  = (ns ← load_SUDO_ADMINS py_int a; ms ← load_SUDO_ADMINS py_int b; Some (ns ++ ms))
  /\ (strip_is_nonempty b = false ->
      load_SUDO_ADMINS py_int (a +:+ "," +:+ b) = load_SUDO_ADMINS py_int a
      /\ load_SUDO_ADMINS py_int (b +:+ "," +:+ a) = load_SUDO_ADMINS py_int a).
Proof.
  assert (Hjoin : forall x y,
            load_SUDO_ADMINS py_int (x +:+ "," +:+ y)
            = (ns ← load_SUDO_ADMINS py_int x; ms ← load_SUDO_ADMINS py_int y;
               Some (ns ++ ms))).
  { intros x y. unfold load_SUDO_ADMINS, py_split.
    change (x +:+ "," +:+ y) with (x +:+ String comma y).
    by rewrite split_on_app, ints_of_pieces_app. }
  split; [apply Hjoin|].
  intros Hblank.
  assert (Hb : load_SUDO_ADMINS py_int b = Some [])
    by (by apply split_on_blank).
  rewrite !Hjoin, Hb. cbn.
  destruct (load_SUDO_ADMINS py_int a) as [ns|]; cbn; [|done].
  by rewrite app_nil_r.
Qed.

Lemma load_SUDO_ADMINS_of_joined_values_witness :
  load_SUDO_ADMINS (fun _ => Some 7%Z) "12,34, "
  = load_SUDO_ADMINS (fun _ => Some 7%Z) "12,34".
Proof.
  apply (proj2 (load_SUDO_ADMINS_of_joined_values (fun _ => Some 7%Z) "12,34" " ")).
  reflexivity.
Defined.

(** ** The backup handlers *)

(** A user who is not in [SUDO_ADMINS] gets the alert and nothing else
    from any of the three handlers: the backup manager is never reached
    (no backup made, none listed, none restored). *)
Theorem backup_handlers_refuse_other_users
    (E : BackupHandlers.Env) (callback : BackupHandlers.Callback)
    (tr : list BackupHandlers.effect) :
  ~ In (BackupHandlers.from_user_id callback) (BackupHandlers.SUDO_ADMINS E) ->
  let alert :=
    BackupHandlers.Answer (Some BackupHandlers.unauthorized_text) (Some true) in
  let refusal :=
    if BackupHandlers.telegram_raises E alert
    then (BackupHandlers.Fail BackupHandlers.TelegramError, tr)
    else (BackupHandlers.Ok tt, tr ++ [alert]) in
  BackupHandlers.create_backup E callback tr = refusal
  /\ BackupHandlers.list_backups E callback tr = refusal
  /\ BackupHandlers.restore_backup E callback tr = refusal.
Proof.
  intros Hnot alert refusal.
  assert (Hguard : BackupHandlers.not_sudo E callback = true).
  { unfold BackupHandlers.not_sudo. apply negb_true_iff, bool_decide_eq_false.
    by rewrite list_elem_of_In. }
  unfold BackupHandlers.create_backup, BackupHandlers.list_backups,
    BackupHandlers.restore_backup.
  rewrite Hguard. by repeat split.
Qed.

Lemma backup_handlers_refuse_other_users_witness :
  let callback := BackupHandlers.mkCallback 999 "restore_x.tar.gz" in
  let alert :=
    BackupHandlers.Answer (Some BackupHandlers.unauthorized_text) (Some true) in
  BackupHandlers.create_backup sample_handler_env callback [] = (BackupHandlers.Ok tt, [alert])
  /\ BackupHandlers.list_backups sample_handler_env callback [] = (BackupHandlers.Ok tt, [alert])
  /\ BackupHandlers.restore_backup sample_handler_env callback []
     = (BackupHandlers.Ok tt, [alert]).
Proof.
  apply (backup_handlers_refuse_other_users sample_handler_env
           (BackupHandlers.mkCallback 999 "restore_x.tar.gz") []).
  cbn. intros [H|[H|[]]]; discriminate H.
Defined.

Lemma split_once_restore (b : string) :
  BackupHandlers.split_once BackupHandlers.underscore ("restore_" +:+ b)
  = ["restore"; b].
Proof. reflexivity. Qed.

(** For a sudo admin, [list_backups] offers one button per backup, whose
    callback data is "restore_" followed by the file name, and pressing
    that button makes [restore_backup] restore exactly that file,
    underscores in the name included, before it does anything else. *)
Theorem restore_button_restores_the_listed_backup
    (E : BackupHandlers.Env) (user : Z) (backups : list string) (back : string)
    (tr : list BackupHandlers.effect) :
  In user (BackupHandlers.SUDO_ADMINS E) ->
  BackupHandlers.manager_list_backups E = Some backups ->
  backups <> [] ->
  BackupHandlers.BUTTONS E !! "back" = Some back ->
  (forall e, BackupHandlers.telegram_raises E e = false) ->
  let keyboard :=
    List.map (fun b => [BackupHandlers.mkButton b ("restore_" +:+ b)]) backups
    ++ [[BackupHandlers.mkButton back "sudo_menu"]] in
  BackupHandlers.list_backups E (BackupHandlers.mkCallback user "backup_restore") tr
  = (BackupHandlers.Ok tt,
     tr ++ [BackupHandlers.ListBackups;
            BackupHandlers.EditText BackupHandlers.choose_backup_text keyboard;
            BackupHandlers.Answer None None])
  /\ forall b tr2,
       In b backups ->
       exists r rest,
         BackupHandlers.restore_backup E
           (BackupHandlers.mkCallback user ("restore_" +:+ b)) tr2
         = (r, tr2 ++ BackupHandlers.RestoreBackup b :: rest).
Proof.
  intros Hsudo Hlist Hne Hback Htelegram keyboard.
  assert (Hguard : forall d,
            BackupHandlers.not_sudo E (BackupHandlers.mkCallback user d) = false).
  { intros d. unfold BackupHandlers.not_sudo. apply negb_false_iff, bool_decide_eq_true.
    by rewrite list_elem_of_In. }
  split.
  - unfold BackupHandlers.list_backups. rewrite Hguard.
    unfold mbind, BackupHandlers.H_bind, BackupHandlers.backup_manager_list_backups.
    rewrite Hlist. destruct backups as [|b0 backups]; [done|].
    unfold BackupHandlers.config_BUTTONS. rewrite Hback. cbn.
    unfold BackupHandlers.message_edit_text, BackupHandlers.callback_answer,
      BackupHandlers.telegram.
    rewrite !Htelegram. cbn. by rewrite <- !app_assoc.
  - intros b tr2 _.
    unfold BackupHandlers.restore_backup. rewrite Hguard.
    cbn [BackupHandlers.data]. rewrite split_once_restore.
    unfold mbind, BackupHandlers.H_bind. cbn.
    destruct (BackupHandlers.manager_restore_backup E b) as [success message].
    unfold BackupHandlers.config_MESSAGES, BackupHandlers.format,
      BackupHandlers.back_keyboard, BackupHandlers.config_BUTTONS,
      BackupHandlers.message_edit_text, BackupHandlers.callback_answer,
      BackupHandlers.telegram, BackupHandlers.fail, mbind, BackupHandlers.H_bind,
      mret, BackupHandlers.H_ret.
    rewrite Hback.
    destruct success;
      repeat (case_match; simplify_eq/=); rewrite ?Htelegram; cbn;
      eexists _, _; rewrite <- ?app_assoc; cbn; reflexivity.
Qed.

Lemma restore_button_restores_the_listed_backup_witness :
  let backups := ["marzban_backup_20260101_000000.tar.gz";
                  "marzban_backup_20260102_000000.tar.gz"] in
  let keyboard :=
    List.map (fun b => [BackupHandlers.mkButton b ("restore_" +:+ b)]) backups
    ++ [[BackupHandlers.mkButton "Back" "sudo_menu"]] in
  BackupHandlers.list_backups sample_handler_env
    (BackupHandlers.mkCallback 101 "backup_restore") []
  = (BackupHandlers.Ok tt,
     [] ++ [BackupHandlers.ListBackups;
            BackupHandlers.EditText BackupHandlers.choose_backup_text keyboard;
            BackupHandlers.Answer None None])
  /\ forall b tr2,
       In b backups ->
       exists r rest,
         BackupHandlers.restore_backup sample_handler_env
           (BackupHandlers.mkCallback 101 ("restore_" +:+ b)) tr2
         = (r, tr2 ++ BackupHandlers.RestoreBackup b :: rest).
Proof.
  apply (restore_button_restores_the_listed_backup sample_handler_env 101
           ["marzban_backup_20260101_000000.tar.gz";
            "marzban_backup_20260102_000000.tar.gz"] "Back" []);
    [left; reflexivity|reflexivity|discriminate|reflexivity|reflexivity].
Defined.

(** ** Failures that the jobs absorb *)

(** No exception leaves a job or a handler, whatever the store, the
    panel, the bot and the backup manager do: each of them ends in a
    handler that only prints.  This includes the [UnboundLocalError] that
    [check_admin_limits_by_id] raises when the store lookup fails, which
    the loop body of [monitor_all_admins] catches. *)
Theorem jobs_never_raise (E : Env) (w : World) :
  (monitor_all_admins E w).1 = Ret tt
  /\ (cleanup_expired_users E w).1 = Ret tt
  /\ (run_auto_backup E w).1 = Ret tt
  /\ (forall admin, (monitor_admin E admin w).1 = Ret tt)
  /\ (forall result, (handle_limit_warning E result w).1 = Ret tt)
  /\ (forall result, (handle_limit_exceeded E result w).1 = Ret tt).
Proof.
  assert (Hprint : forall (body : M unit) line w0,
            (try_except body (fun e => print (line e)) w0).1 = Ret tt).
  { intros body line w0. destruct (try_except_print body line w0) as [w' ->]. reflexivity. }
  repeat split; intros; apply Hprint.
Qed.

(** When the store cannot enumerate the admins, a cycle evaluates nobody:
    it returns normally without a panel call, a usage report, a log entry
    or a message, with the reaper switched on or off. *)
Theorem cycle_without_admin_list (E : Env) (w : World) :
  get_all_admins_raises E = true ->
  exists w',
    monitor_all_admins E w = (Ret tt, w')
    /\ panel_calls w' = panel_calls w
    /\ db_usage_reports w' = db_usage_reports w
    /\ db_logs w' = db_logs w
    /\ sent_messages w' = sent_messages w
    /\ sleeps w' = sleeps w.
Proof.
  intros Hraises.
  assert (Hreaper : forall w0,
            cleanup_expired_users E w0
            = (Ret tt,
               set_stdout
                 (fun l => l ++ ["Error in cleanup_expired_users: db.get_all_admins"]) w0)).
  { intros w0. rewrite cleanup_expired_users_unfold.
    unfold try_except, mbind, M_bind, db_get_all_admins. by rewrite Hraises. }
  unfold monitor_all_admins, try_except.
  rewrite (bind_ret (datetime_now E) _ w (set_ticks S w) (now E (ticks w)) eq_refl).
  rewrite (bind_ret (print _) _ _ _ tt eq_refl).
  destruct (Config.AUTO_DELETE_EXPIRED_USERS (config E)).
  - rewrite (bind_ret _ _ _ _ _ (Hreaper _)).
    unfold mbind, M_bind, db_get_all_admins. rewrite Hraises. cbn.
    eexists. by repeat split.
  - rewrite (bind_ret (mret tt) _ _ _ tt eq_refl).
    unfold mbind, M_bind, db_get_all_admins. rewrite Hraises. cbn.
    eexists. by repeat split.
Qed.

Lemma cycle_without_admin_list_witness :
  let E := mkEnv sample_config
             (fun _ => false) (fun _ => false) true (fun _ => false) (fun _ => false)
             (get_admin_stats sample_env) (get_users sample_env) (remove_user sample_env)
             (create_backup sample_env) (send_message_raises sample_env)
             (utcnow sample_env) (now sample_env) (str_datetime sample_env)
             (str_format sample_env) in
  exists w',
    monitor_all_admins E sample_world = (Ret tt, w')
    /\ panel_calls w' = panel_calls sample_world
    /\ db_usage_reports w' = db_usage_reports sample_world
    /\ db_logs w' = db_logs sample_world
    /\ sent_messages w' = sent_messages sample_world
    /\ sleeps w' = sleeps sample_world.
Proof.
  apply (cycle_without_admin_list
           (mkEnv sample_config
              (fun _ => false) (fun _ => false) true (fun _ => false) (fun _ => false)
              (get_admin_stats sample_env) (get_users sample_env) (remove_user sample_env)
              (create_backup sample_env) (send_message_raises sample_env)
              (utcnow sample_env) (now sample_env) (str_datetime sample_env)
              (str_format sample_env))
           sample_world).
  reflexivity.
Defined.

(** A failure after the lookup is absorbed by [check_admin_limits_by_id]:
    when the panel raises, or when the panel answers and
    [add_usage_report] raises, the call returns the neutral result under
    the admin's [user_id], stores no usage report and prints one error
    line. *)
Theorem check_admin_limits_by_id_absorbs_later_failures
    (E : Env) (w : World) (admin_id : Z) (admin : Admin.t) :
  get_admin_by_id_raises E (Some admin_id) = false ->
  List.find (fun a => Z.eqb (Admin.id a) admin_id) (db_admins w) = Some admin ->
  Admin.is_active admin = true ->
  match get_admin_stats E (admin_username_of admin) with
  | Some admin_stats =>
      add_usage_report_raises E (report_at E w admin admin_stats) = true
  | None => True
  end ->
  exists w' line,
    check_admin_limits_by_id E admin_id w
    = (Ret (LimitCheckResult.neutral (Admin.user_id admin)), w')
    /\ db_usage_reports w' = db_usage_reports w
    /\ sent_messages w' = sent_messages w
    /\ stdout w' = stdout w ++ ["Error checking admin limits: " +:+ line]
    /\ panel_calls w'
       = panel_calls w ++ [CallGetAdminStats (admin_username_of admin)].
Proof.
  intros Hok Hfound Hactive Hfail.
  unfold check_admin_limits_by_id, try_assign_except, db_get_admin_by_id.
  rewrite Hok, Hfound, Hactive. cbn [negb].
  unfold try_except, mbind, M_bind, marzban_api_get_admin_stats.
  destruct (get_admin_stats E (admin_username_of admin)) as [admin_stats|].
  - cbn [datetime_utcnow set_panel_calls set_ticks ticks].
    unfold db_add_usage_report.
    change (utcnow E (ticks w) - Admin.created_at admin)%Q with (elapsed_at E w admin).
    fold (report_at E w admin admin_stats).
    rewrite Hfail. cbn. eexists _, _. by repeat split.
  - cbn. eexists _, _. by repeat split.
Qed.

Lemma check_admin_limits_by_id_absorbs_later_failures_witness :
  exists w' line,
    check_admin_limits_by_id sample_env 2 sample_world
    = (Ret (LimitCheckResult.neutral (Admin.user_id bob)), w')
    /\ db_usage_reports w' = db_usage_reports sample_world
    /\ sent_messages w' = sent_messages sample_world
    /\ stdout w' = stdout sample_world ++ ["Error checking admin limits: " +:+ line]
    /\ panel_calls w'
       = panel_calls sample_world ++ [CallGetAdminStats (admin_username_of bob)].
Proof.
  apply (check_admin_limits_by_id_absorbs_later_failures sample_env sample_world 2 bob);
    first [reflexivity | exact I].
Defined.

Example restart_after_stop :
  let w := world_after sample_env sample_admins
             [OpStart; OpMonitorAllAdmins; OpStop; OpStop; OpStart; OpStart] in
  is_running w = true
  /\ get_status (fun job => Job.name job) w
     = Some (Status.mk true 2 (Some "Admin Limit Monitor") (Some "Auto Backup")).
Proof. split; vm_compute; reflexivity. Qed.
